(** * TableAgentGPT: the session state machine

    A shallow embedding of [pydantic_models.py], [manage_multi_agent_states.py]
    and the wiring of [build_state_graph.py].

    Python [str] values are modelled by [string].  The texts the handlers
    look into (the line typed by the user, the answer of the model, a file
    path) are read one character per code point, below 256; the tables of
    white space and of lower case are Python's for that range.  Python
    [int] is [Z].

    The stage handlers mutate one [ChatState] and return it; here they are
    functions from the state and the answer of the outside world (the line
    typed by the user, the text of the language model, the outcome of the
    relational engine, the contents of the description file) to the new
    state.  A handler that raises has no new state: [None]. *)

From Stdlib Require Import String Ascii List ZArith Bool Lia PeanoNat.
From Stdlib Require Import DecimalString.
Import ListNotations.
Open Scope string_scope.

(** ** Python string operations used by the handlers *)

Module PyStr.

Definition newline : string := String "010"%char "".

(** [str.isspace] on one code point below 256. *)
Definition is_space (c : ascii) : bool :=
  let n := nat_of_ascii c in
  ((9 <=? n) && (n <=? 13) || (28 <=? n) && (n <=? 32)
   || (n =? 133) || (n =? 160))%nat.

(** [str.lower] on one code point below 256. *)
Definition lower_char (c : ascii) : ascii :=
  let n := nat_of_ascii c in
  if ((65 <=? n) && (n <=? 90))%nat then ascii_of_nat (n + 32)
  else if ((192 <=? n) && (n <=? 222) && negb (n =? 215))%nat
       then ascii_of_nat (n + 32)
       else c.

Fixpoint lower (s : string) : string :=
  match s with
  | EmptyString => EmptyString
  | String c r => String (lower_char c) (lower r)
  end.

(** [s.startswith(p)] *)
Definition startswith (s p : string) : bool := String.prefix p s.

(** [s.lstrip()], [s.rstrip()] and [s.strip()] *)
Fixpoint lstrip (s : string) : string :=
  match s with
  | EmptyString => EmptyString
  | String c r => if is_space c then lstrip r else s
  end.

Fixpoint rstrip (s : string) : string :=
  match s with
  | EmptyString => EmptyString
  | String c r =>
      match rstrip r with
      | EmptyString => if is_space c then EmptyString else String c EmptyString
      | r' => String c r'
      end
  end.

Definition strip (s : string) : string := rstrip (lstrip s).

(** [s.split()]: the maximal runs of characters that are not white space. *)
Fixpoint split_ws (s : string) : list string :=
  match s with
  | EmptyString => []
  | String c r =>
      if is_space c then split_ws r
      else match r with
           | EmptyString => [String c EmptyString]
           | String d _ =>
               if is_space d then String c EmptyString :: split_ws r
               else match split_ws r with
                    | w :: ws => String c w :: ws
                    | [] => [String c EmptyString]
                    end
           end
  end.

(** [s.split(sep)] for a non-empty [sep]: occurrences are found from the
    left and do not overlap.  [skip] counts the characters of an
    occurrence that is being passed over; the head of the result is the
    piece under construction. *)
Fixpoint split_on_aux (sep : string) (skip : nat) (s : string) : list string :=
  match s with
  | EmptyString => [EmptyString]
  | String c r =>
      match skip with
      | S k => split_on_aux sep k r
      | O =>
          if String.prefix sep s
          then EmptyString :: split_on_aux sep (String.length sep - 1) r
          else match split_on_aux sep 0 r with
               | p :: ps => String c p :: ps
               | [] => [String c EmptyString]
               end
      end
  end.

Definition split_on (sep s : string) : list string := split_on_aux sep 0 s.

(** [s.replace(old, "")] for a non-empty [old]. *)
Fixpoint remove_aux (old : string) (skip : nat) (s : string) : string :=
  match s with
  | EmptyString => EmptyString
  | String c r =>
      match skip with
      | S k => remove_aux old k r
      | O =>
          if String.prefix old s
          then remove_aux old (String.length old - 1) r
          else String c (remove_aux old 0 r)
      end
  end.

Definition remove_all (old s : string) : string := remove_aux old 0 s.

(** [s.rfind(c)] for a single character: the index of the last
    occurrence, or -1. *)
Fixpoint rfind_from (c : ascii) (s : string) (i : Z) : Z :=
  match s with
  | EmptyString => (-1)%Z
  | String d r =>
      let k := rfind_from c r (i + 1) in
      if (0 <=? k)%Z then k
      else if Ascii.eqb d c then i else (-1)%Z
  end.

Definition rfind (c : ascii) (s : string) : Z := rfind_from c s 0.

(** [s[i:]] and [s[:i]] for [0 <= i]. *)
Definition slice_from (i : nat) (s : string) : string :=
  String.substring i (String.length s - i) s.

Definition slice_to (i : nat) (s : string) : string :=
  String.substring 0 i s.

Fixpoint all_chars (p : ascii -> bool) (s : string) : bool :=
  match s with
  | EmptyString => true
  | String c r => p c && all_chars p r
  end.

(** [os.path.basename] of posixpath: what follows the last slash. *)
Definition basename (p : string) : string :=
  slice_from (Z.to_nat (rfind "/"%char p + 1)) p.

(** First component of [os.path.splitext] of posixpath: the extension
    starts at the last dot of the last path component, unless that
    component has nothing but dots before it. *)
Definition splitext_root (p : string) : string :=
  let sepIndex := rfind "/"%char p in
  let dotIndex := rfind "."%char p in
  if (sepIndex <? dotIndex)%Z then
    let lead := String.substring (Z.to_nat (sepIndex + 1))
                                 (Z.to_nat (dotIndex - sepIndex - 1)) p in
    if all_chars (fun c => Ascii.eqb c "."%char) lead then p
    else slice_to (Z.to_nat dotIndex) p
  else p.

(** f-string rendering of an optional text: [None] prints as its name. *)
Definition format_opt (s : option string) : string :=
  match s with
  | None => "None"
  | Some t => t
  end.

End PyStr.

Import PyStr.

(** ** The data model ([pydantic_models.py]) *)

(** The three message classes of the conversation. *)
Inductive Role : Type :=
| SystemMessage
| HumanMessage
| AIMessage.

Record Message : Type := mkMessage {
  role : Role;
  content : string
}.

Record DataLoadEvent : Type := mkDataLoadEvent {
  file_path : option string;
  table_columns_description : option string
}.

(** The nodes of the graph ([build_state_graph.py]); [NEnd] is langgraph's
    [END]. *)
Inductive Node : Type :=
| NHandleUserInput
| NLoadData
| NBuildQuery
| NExecuteQuery
| NPostExecution
| NEnd.

(** The value a conditional edge's path map gives for a label; a label that
    is not a key of the map makes the graph library raise. *)
Fixpoint path_lookup (label : string) (path_map : list (string * Node)) : option Node :=
  match path_map with
  | [] => None
  | (key, target) :: rest =>
      if String.eqb label key then Some target else path_lookup label rest
  end.

Definition handle_user_input_paths : list (string * Node) :=
  [("handle_user_input", NHandleUserInput);
   ("load_data", NLoadData);
   ("build_query", NBuildQuery);
   ("END", NEnd)].

Definition build_query_paths : list (string * Node) :=
  [("handle_user_input", NHandleUserInput);
   ("execute_query", NExecuteQuery)].

Definition execute_query_paths : list (string * Node) :=
  [("build_query", NBuildQuery);
   ("post_execution", NPostExecution);
   ("handle_user_input", NHandleUserInput)].

(** The names a [next_step] may take: the five stages and the end marker. *)
Definition stage_names : list string :=
  ["handle_user_input"; "load_data"; "build_query"; "execute_query";
   "post_execution"; "END"].

(** The stages that work on a question. *)
Definition query_stage (n : Node) : bool :=
  match n with
  | NBuildQuery | NExecuteQuery | NPostExecution => true
  | _ => false
  end.

Definition welcome_text : string :=
  "Welcome to TableAgentGPT! This tool enables you to interact with your tabular data "
  ++ "by generating queries on your behalf." ++ newline ++ newline
  ++ "To get started, please load your data and its metadata using the command:" ++ newline
  ++ "/load <file_path> <table_columns_description>" ++ newline ++ newline
  ++ "Once your data is loaded, feel free to ask any questions, and I’ll retrieve insights for you."
  ++ newline
  ++ "To exit the system, simply type /q.".

Section Session.

(** What [fetchall()] returns, and how Python prints it in an f-string. *)
Context {Rows : Type}.
Variable show_rows : Rows -> string.

(** [constants.MAX_RETRY_SQL_GENERATION] *)
Variable MAX_RETRY_SQL_GENERATION : Z.

Record SqlEvent : Type := mkSqlEvent {
  user_question : option string;
  sql_text : option string;
  sql_result : option Rows;
  llm_response : option string;
  error : option string;
  retry_count : Z
}.

(** [SqlEvent(user_question=q)]: every other field takes its default. *)
Definition new_sql_event (q : string) : SqlEvent :=
  mkSqlEvent (Some q) None None None None 0.

Record ChatState : Type := mkChatState {
  conversation_history : list Message;
  sql_event : SqlEvent;
  data_load_event : DataLoadEvent;
  table_schemas : string;
  next_step : string
}.

(** [ChatState.update_conversation_history] *)
Definition update_conversation_history (state : ChatState) (new_message : Message)
  : ChatState :=
  mkChatState (conversation_history state ++ [new_message])
              (sql_event state) (data_load_event state)
              (table_schemas state) (next_step state).

(** Assignments to the fields of the state. *)
Definition set_next_step (state : ChatState) (step : string) : ChatState :=
  mkChatState (conversation_history state) (sql_event state)
              (data_load_event state) (table_schemas state) step.

Definition set_sql_event (state : ChatState) (ev : SqlEvent) : ChatState :=
  mkChatState (conversation_history state) ev
              (data_load_event state) (table_schemas state) (next_step state).

Definition set_data_load_event (state : ChatState) (ev : DataLoadEvent) : ChatState :=
  mkChatState (conversation_history state) (sql_event state)
              ev (table_schemas state) (next_step state).

Definition set_table_schemas (state : ChatState) (schemas : string) : ChatState :=
  mkChatState (conversation_history state) (sql_event state)
              (data_load_event state) schemas (next_step state).

(** ** The stage handlers ([manage_multi_agent_states.py]) *)

Definition load_first_text : string :=
  "Please load your data first using the command /load <file_path> "
  ++ " <table_columns_description>.".

(** [handle_user_input].  The handler first logs the last message of the
    history, which raises on an empty history: the result is [None] then.
    [user_input] is the line read from the console.  A malformed load
    command is reported through the logger only. *)
Definition handle_user_input (state : ChatState) (user_input : string)
  : option ChatState :=
  match conversation_history state with
  | [] => None
  | _ :: _ =>
      Some
        (if startswith (lower user_input) "/q" then
           set_next_step state "END"
         else if startswith (lower user_input) "/load" then
           match split_ws user_input with
           | [_; path; description] =>
               set_next_step
                 (set_data_load_event state
                    (mkDataLoadEvent (Some path) (Some description)))
                 "load_data"
           | _ => set_next_step state "handle_user_input"
           end
         else if String.eqb (table_schemas state) "" then
           set_next_step
             (update_conversation_history state
                (mkMessage SystemMessage load_first_text))
             "handle_user_input"
         else
           set_next_step
             (set_sql_event
                (update_conversation_history state
                   (mkMessage HumanMessage user_input))
                (new_sql_event user_input))
             "build_query")
  end.

(** The block a load adds to the schemas. *)
Definition table_name_of (path : string) : string :=
  splitext_root (basename path).

Definition table_info_of (path meta : string) : string :=
  "Table: " ++ table_name_of path ++ newline ++ meta ++ newline.

(** [load_data].  [meta] is the text of the description file, read after
    the engine has created the table; when either fails, the exception
    leaves the handler and there is no call of this function.  A load
    event without its two paths raises as well: [None]. *)
Definition load_data (state : ChatState) (meta : string) : option ChatState :=
  match file_path (data_load_event state),
        table_columns_description (data_load_event state) with
  | Some path, Some _ =>
      let table_name := table_name_of path in
      let table_info := table_info_of path meta in
      Some
        (set_next_step
           (update_conversation_history
              (set_table_schemas state (table_schemas state ++ table_info))
              (mkMessage SystemMessage
                 ("Table '" ++ table_name ++ "' loaded with metadata:"
                  ++ newline ++ table_info)))
           "handle_user_input")
  | _, _ => None
  end.

Definition clarification_marker : string := "[CLARIFICATION]".

(** [build_query].  [llm_text] is the content of the model's answer to
    the full history. *)
Definition build_query (state : ChatState) (llm_text : string) : ChatState :=
  if startswith llm_text clarification_marker then
    let clarification_text :=
      strip (nth 1 (split_on clarification_marker llm_text) "") in
    let clarification_msg :=
      "Your question is ambiguous. "
      ++ "Please provide additional details: " ++ clarification_text in
    set_next_step
      (update_conversation_history state (mkMessage AIMessage clarification_msg))
      "handle_user_input"
  else
    let query_text := strip (remove_all "```" (remove_all "```sql" llm_text)) in
    let ev := sql_event state in
    set_next_step
      (set_sql_event
         (update_conversation_history state (mkMessage AIMessage query_text))
         (mkSqlEvent (user_question ev) (Some query_text) (sql_result ev)
                     (llm_response ev) (error ev) (retry_count ev)))
      "execute_query".

(** The fence that is removed last from the model's answer. *)
Definition fence : string := "```".

(** The text of the message sent when the retries are used up.  Only the
    first of the two adjacent literals is an f-string, and it holds no
    placeholder; the braces of the second literal are plain text. *)
Definition give_up_text : string :=
  "Unfortunately, I was unable to execute your requests "
  ++ "after {MAX_RETRY_SQL_GENERATION} attempts.".

Definition error_text (e : string) : string :=
  "The generated SQL query raised this error:" ++ newline ++ e ++ newline.

(** [execute_query].  [outcome] is what the engine does with the query:
    [inr rows] when [fetchall()] returns, [inl msg] when an exception
    whose text is [msg] is raised. *)
Definition execute_query (state : ChatState) (outcome : string + Rows) : ChatState :=
  let ev := sql_event state in
  match outcome with
  | inr result =>
      set_next_step
        (set_sql_event state
           (mkSqlEvent (user_question ev) (sql_text ev) (Some result)
                       (llm_response ev) None (retry_count ev)))
        "post_execution"
  | inl e =>
      let ev' := mkSqlEvent (user_question ev) (sql_text ev) None
                            (llm_response ev) (Some e) (retry_count ev + 1) in
      let state' := set_sql_event state ev' in
      if (MAX_RETRY_SQL_GENERATION <? retry_count ev')%Z then
        set_next_step
          (update_conversation_history state' (mkMessage AIMessage give_up_text))
          "handle_user_input"
      else
        set_next_step
          (update_conversation_history state'
             (mkMessage AIMessage (error_text (format_opt (error ev')))))
          "build_query"
  end.

Definition format_result (r : option Rows) : string :=
  match r with
  | None => "None"
  | Some rows => show_rows rows
  end.

(** [post_execution].  [llm_text] is the model's summary of the result.
    The messages for the model hold [HumanMessage(content=user_question)],
    and a message class refuses a content of [None]: without a question
    the handler raises, after its first append, and there is no new state:
    [None]. *)
Definition post_execution (state : ChatState) (llm_text : string)
  : option ChatState :=
  let sql_results :=
    mkMessage AIMessage
      ("SQL results are: " ++ format_result (sql_result (sql_event state))) in
  let state1 := update_conversation_history state sql_results in
  match user_question (sql_event state1) with
  | None => None
  | Some _ =>
      let state2 :=
        update_conversation_history state1 (mkMessage AIMessage llm_text) in
      let ev := sql_event state2 in
      Some
        (set_next_step
           (set_sql_event state2
              (mkSqlEvent (user_question ev) (sql_text ev) (sql_result ev)
                          (Some llm_text) (error ev) (retry_count ev)))
           "handle_user_input")
  end.

(** [route_to_next_step] *)
Definition route_to_next_step (state : ChatState) : string := next_step state.

(** ** The graph ([build_state_graph.py]) *)

(** The state the loop starts from: every field but the history has its
    default. *)
Definition chat_state : ChatState :=
  mkChatState [mkMessage SystemMessage welcome_text]
              (mkSqlEvent None None None None None 0)
              (mkDataLoadEvent None None)
              ""
              "handle_user_input".

(** What the outside world answers during one stage. *)
Inductive Reply : Type :=
| UserLine (line : string)
| FileText (meta : string)
| LlmText (text : string)
| DbOutcome (outcome : string + Rows).

(** The handler of a node, run on the answer it waits for.  [None]: the
    handler raises, or the answer is not of the kind this node asks for. *)
Definition run_handler (n : Node) (state : ChatState) (r : Reply) : option ChatState :=
  match n, r with
  | NHandleUserInput, UserLine line => handle_user_input state line
  | NLoadData, FileText meta => load_data state meta
  | NBuildQuery, LlmText text => Some (build_query state text)
  | NExecuteQuery, DbOutcome outcome => Some (execute_query state outcome)
  | NPostExecution, LlmText text => post_execution state text
  | _, _ => None
  end.

(** The node that follows [n] once its handler has returned [state]: a
    fixed edge after [load_data] and [post_execution], a conditional edge
    through [route_to_next_step] after the other three. *)
Definition successor (n : Node) (state : ChatState) : option Node :=
  match n with
  | NHandleUserInput => path_lookup (route_to_next_step state) handle_user_input_paths
  | NLoadData => Some NHandleUserInput
  | NBuildQuery => path_lookup (route_to_next_step state) build_query_paths
  | NExecuteQuery => path_lookup (route_to_next_step state) execute_query_paths
  | NPostExecution => Some NHandleUserInput
  | NEnd => None
  end.

Definition graph_step (n : Node) (state : ChatState) (r : Reply)
  : option (Node * ChatState) :=
  match run_handler n state r with
  | Some state' =>
      match successor n state' with
      | Some n' => Some (n', state')
      | None => None
      end
  | None => None
  end.

Fixpoint graph_run (n : Node) (state : ChatState) (replies : list Reply)
  : option (Node * ChatState) :=
  match replies with
  | [] => Some (n, state)
  | r :: rest =>
      match graph_step n state r with
      | Some (n', state') => graph_run n' state' rest
      | None => None
      end
  end.

(** The nodes entered one after the other along [replies]. *)
Fixpoint nodes_entered (n : Node) (state : ChatState) (replies : list Reply)
  : list Node :=
  match replies with
  | [] => []
  | r :: rest =>
      match graph_step n state r with
      | Some (n', state') => n' :: nodes_entered n' state' rest
      | None => []
      end
  end.

(** The configurations a session can be in. *)
Inductive reachable : Node -> ChatState -> Prop :=
| reachable_start : reachable NHandleUserInput chat_state
| reachable_step n state r n' state' :
    reachable n state ->
    graph_step n state r = Some (n', state') ->
    reachable n' state'.

(** The loads of a session, read off the answers alone: a description
    file is read right after a line that was taken as a load command, and
    the file path is the second token of that line. *)
Fixpoint loads_of (pending : option string) (replies : list Reply)
  : list (string * string) :=
  match replies with
  | [] => []
  | UserLine line :: rest => loads_of (Some line) rest
  | FileText meta :: rest =>
      match pending with
      | Some line => (nth 1 (split_ws line) "", meta) :: loads_of None rest
      | None => loads_of None rest
      end
  | _ :: rest => loads_of None rest
  end.

Definition block_of (load : string * string) : string :=
  table_info_of (fst load) (snd load).

(** A failed try whose error the model answers with a query, not with a
    request for clarification. *)
Definition answers_with_sql (try : string * string) : Prop :=
  startswith (snd try) clarification_marker = false.

(** The answers of [length tries] failed executions, each followed by a
    new query from the model, and of one more failed execution. *)
Fixpoint failing_replies (tries : list (string * string)) (last_error : string)
  : list Reply :=
  match tries with
  | [] => [DbOutcome (inl last_error)]
  | (e, text) :: rest =>
      DbOutcome (inl e) :: LlmText text :: failing_replies rest last_error
  end.

Fixpoint retry_cycle (k : nat) : list Node :=
  match k with
  | O => []
  | S k' => NBuildQuery :: NExecuteQuery :: retry_cycle k'
  end.

Definition count_node (n : Node) (path : list Node) : nat :=
  length (filter (fun m => match n, m with
                           | NHandleUserInput, NHandleUserInput
                           | NLoadData, NLoadData
                           | NBuildQuery, NBuildQuery
                           | NExecuteQuery, NExecuteQuery
                           | NPostExecution, NPostExecution
                           | NEnd, NEnd => true
                           | _, _ => false
                           end) path).

(** Texts with a decimal digit, and texts holding another text. *)
Definition is_digit (c : ascii) : bool :=
  let n := nat_of_ascii c in ((48 <=? n) && (n <=? 57))%nat.

Fixpoint has_digit (s : string) : bool :=
  match s with
  | EmptyString => false
  | String c r => is_digit c || has_digit r
  end.

Fixpoint contains (s sub : string) : bool :=
  String.prefix sub s
  || match s with
     | EmptyString => false
     | String _ r => contains r sub
     end.

Fixpoint concat_blocks (blocks : list string) : string :=
  match blocks with
  | [] => ""
  | b :: rest => b ++ concat_blocks rest
  end.

(** The branches of the five handlers, one constructor for each path
    through the source: [branch n state r state'] when the handler of
    node [n], run on [state] and on the answer [r], takes that path and
    returns [state']. *)
Inductive branch : Node -> ChatState -> Reply -> ChatState -> Prop :=
| intake_quit state line :
    conversation_history state <> [] ->
    startswith (lower line) "/q" = true ->
    branch NHandleUserInput state (UserLine line) (set_next_step state "END")
| intake_load state line marker path description :
    conversation_history state <> [] ->
    startswith (lower line) "/q" = false ->
    startswith (lower line) "/load" = true ->
    split_ws line = [marker; path; description] ->
    branch NHandleUserInput state (UserLine line)
      (set_next_step
         (set_data_load_event state
            (mkDataLoadEvent (Some path) (Some description)))
         "load_data")
| intake_malformed_load state line :
    conversation_history state <> [] ->
    startswith (lower line) "/q" = false ->
    startswith (lower line) "/load" = true ->
    length (split_ws line) <> 3 ->
    branch NHandleUserInput state (UserLine line)
      (set_next_step state "handle_user_input")
| intake_no_schema state line :
    conversation_history state <> [] ->
    startswith (lower line) "/q" = false ->
    startswith (lower line) "/load" = false ->
    table_schemas state = "" ->
    branch NHandleUserInput state (UserLine line)
      (set_next_step
         (update_conversation_history state
            (mkMessage SystemMessage load_first_text))
         "handle_user_input")
| intake_question state line :
    conversation_history state <> [] ->
    startswith (lower line) "/q" = false ->
    startswith (lower line) "/load" = false ->
    table_schemas state <> "" ->
    branch NHandleUserInput state (UserLine line)
      (set_next_step
         (set_sql_event
            (update_conversation_history state (mkMessage HumanMessage line))
            (new_sql_event line))
         "build_query")
| load_done state meta path description :
    data_load_event state = mkDataLoadEvent (Some path) (Some description) ->
    branch NLoadData state (FileText meta)
      (set_next_step
         (update_conversation_history
            (set_table_schemas state
               (table_schemas state ++ table_info_of path meta))
            (mkMessage SystemMessage
               ("Table '" ++ table_name_of path ++ "' loaded with metadata:"
                ++ newline ++ table_info_of path meta)))
         "handle_user_input")
| build_clarification state text :
    startswith text clarification_marker = true ->
    branch NBuildQuery state (LlmText text)
      (set_next_step
         (update_conversation_history state
            (mkMessage AIMessage
               ("Your question is ambiguous. Please provide additional details: "
                ++ strip (nth 1 (split_on clarification_marker text) ""))))
         "handle_user_input")
| build_sql state text :
    startswith text clarification_marker = false ->
    branch NBuildQuery state (LlmText text)
      (set_next_step
         (set_sql_event
            (update_conversation_history state
               (mkMessage AIMessage
                  (strip (remove_all "```" (remove_all "```sql" text)))))
            (mkSqlEvent (user_question (sql_event state))
               (Some (strip (remove_all "```" (remove_all "```sql" text))))
               (sql_result (sql_event state)) (llm_response (sql_event state))
               (error (sql_event state)) (retry_count (sql_event state))))
         "execute_query")
| execute_success state rows :
    branch NExecuteQuery state (DbOutcome (inr rows))
      (set_next_step
         (set_sql_event state
            (mkSqlEvent (user_question (sql_event state)) (sql_text (sql_event state))
               (Some rows) (llm_response (sql_event state)) None
               (retry_count (sql_event state))))
         "post_execution")
| execute_give_up state e :
    (MAX_RETRY_SQL_GENERATION < retry_count (sql_event state) + 1)%Z ->
    branch NExecuteQuery state (DbOutcome (inl e))
      (set_next_step
         (update_conversation_history
            (set_sql_event state
               (mkSqlEvent (user_question (sql_event state))
                  (sql_text (sql_event state)) None
                  (llm_response (sql_event state)) (Some e)
                  (retry_count (sql_event state) + 1)))
            (mkMessage AIMessage give_up_text))
         "handle_user_input")
| execute_retry state e :
    (retry_count (sql_event state) + 1 <= MAX_RETRY_SQL_GENERATION)%Z ->
    branch NExecuteQuery state (DbOutcome (inl e))
      (set_next_step
         (update_conversation_history
            (set_sql_event state
               (mkSqlEvent (user_question (sql_event state))
                  (sql_text (sql_event state)) None
                  (llm_response (sql_event state)) (Some e)
                  (retry_count (sql_event state) + 1)))
            (mkMessage AIMessage (error_text e)))
         "build_query")
| narration_done state text question :
    user_question (sql_event state) = Some question ->
    branch NPostExecution state (LlmText text)
      (set_next_step
         (set_sql_event
            (update_conversation_history
               (update_conversation_history state
                  (mkMessage AIMessage
                     ("SQL results are: "
                      ++ format_result (sql_result (sql_event state)))))
               (mkMessage AIMessage text))
            (mkSqlEvent (user_question (sql_event state)) (sql_text (sql_event state))
               (sql_result (sql_event state)) (Some text)
               (error (sql_event state)) (retry_count (sql_event state))))
         "handle_user_input").

(** The load that node [n] is about to perform is the one asked for by
    the line [pending]. *)
Definition pending_load (n : Node) (state : ChatState) (pending : option string)
  : Prop :=
  n = NLoadData ->
  exists line,
    pending = Some line
    /\ file_path (data_load_event state) = Some (nth 1 (split_ws line) "").

(** What one run of the handler of node [n] may add to the history. *)
Definition allowed_addition (n : Node) (added : list Message) : Prop :=
  match n with
  | NHandleUserInput =>
      added = []
      \/ exists m, added = [m]
                   /\ (role m = SystemMessage \/ role m = HumanMessage)
  | NLoadData => exists m, added = [m] /\ role m = SystemMessage
  | NBuildQuery => exists m, added = [m] /\ role m = AIMessage
  | NExecuteQuery => added = [] \/ exists m, added = [m] /\ role m = AIMessage
  | NPostExecution =>
      exists m1 m2, added = [m1; m2] /\ role m1 = AIMessage /\ role m2 = AIMessage
  | NEnd => False
  end.

(** A state with one table loaded, for the scenarios below. *)
Definition loaded_state : ChatState :=
  set_table_schemas chat_state
    (table_info_of "sales.csv" "columns: id, amount, date").

(** ** The prompts ([ChatState.system_message],
    [ChatState.get_conversation_history], the messages of [post_execution]) *)

(** [constants.MAX_ROW_LIMIT_SQL_QUERY] *)
Variable MAX_ROW_LIMIT_SQL_QUERY : Z.

(** f-string rendering of an [int]: its decimal digits, with a sign when
    it is negative. *)
Definition format_int (z : Z) : string := NilZero.string_of_int (Z.to_int z).

Definition double_quote : string := String "034"%char "".

(** The content of the system message up to the schemas. *)
Definition system_instruction : string :=
  "You are an intelligent assistant that converts natural language questions "
  ++ "into correct DuckDB SQL queries." ++ newline
  ++ "Your goal is to generate a SQL query by considering the user's intent, "
  ++ "previous interactions, and the table schemas." ++ newline ++ newline
  ++ "Return format:" ++ newline
  ++ "1. If the intent is clear, generate a complete DuckDB SQL query that satisfies "
  ++ "the request. Return only the SQL query text without any extra commentary. Limit "
  ++ "query response to " ++ format_int MAX_ROW_LIMIT_SQL_QUERY ++ " rows at most."
  ++ newline
  ++ "2. If the intent is ambiguous, ask a follow-up clarification question that "
  ++ "requests additional details. Prefix your clarification question with "
  ++ double_quote ++ "[CLARIFICATION]" ++ double_quote ++ " as output."
  ++ newline ++ newline
  ++ "Instructions:" ++ newline
  ++ "1. Consider the user's intent based on the current question." ++ newline
  ++ "2. If any previous SQL query resulted in an error, incorporate the error "
  ++ "message and generate a corrected query." ++ newline
  ++ "3. If previous user questions or clarifications are relevant, include them "
  ++ "in your analysis." ++ newline ++ newline
  ++ "Table schemas: ".

(** [ChatState.system_message] *)
Definition system_message (state : ChatState) : Message :=
  mkMessage SystemMessage (system_instruction ++ table_schemas state).

(** [ChatState.get_conversation_history]: what [build_query] sends to the
    model. *)
Definition get_conversation_history (state : ChatState) : list Message :=
  system_message state :: conversation_history state.

(** [interpret_msgs] of [post_execution]: what is sent to the model for the
    summary.  A message class refuses a content of [None], so a state with
    no question has no such list. *)
Definition interpret_msgs (state : ChatState) : option (list Message) :=
  match user_question (sql_event state) with
  | None => None
  | Some question =>
      Some
        [mkMessage SystemMessage
           ("You are an intelligent assistant that summarizes SQL query results based on "
            ++ "given table schemas. " ++ newline
            ++ "Table Schemas: " ++ table_schemas state);
         mkMessage HumanMessage question;
         mkMessage AIMessage
           ("Generated SQL Text is: " ++ format_opt (sql_text (sql_event state)));
         mkMessage AIMessage
           ("SQL results are: " ++ format_result (sql_result (sql_event state)))]
  end.

(** ** More of the graph *)

(** The pairs (node, node that may follow) the wiring of
    [build_state_graph.py] allows. *)
Definition graph_edges : list (Node * Node) :=
  [(NHandleUserInput, NHandleUserInput);
   (NHandleUserInput, NLoadData);
   (NHandleUserInput, NBuildQuery);
   (NHandleUserInput, NEnd);
   (NLoadData, NHandleUserInput);
   (NBuildQuery, NHandleUserInput);
   (NBuildQuery, NExecuteQuery);
   (NExecuteQuery, NBuildQuery);
   (NExecuteQuery, NPostExecution);
   (NExecuteQuery, NHandleUserInput);
   (NPostExecution, NHandleUserInput)].

(** What the handler of node [n] needs to find in the state. *)
Definition stage_ready (n : Node) (state : ChatState) : Prop :=
  match n with
  | NLoadData =>
      exists path description,
        data_load_event state = mkDataLoadEvent (Some path) (Some description)
  | NBuildQuery =>
      exists question, user_question (sql_event state) = Some question
  | NExecuteQuery =>
      exists question query earlier,
        user_question (sql_event state) = Some question
        /\ sql_text (sql_event state) = Some query
        /\ conversation_history state = (earlier ++ [mkMessage AIMessage query])%list
        /\ contains query "```" = false
  | NPostExecution =>
      exists question query rows,
        user_question (sql_event state) = Some question
        /\ sql_text (sql_event state) = Some query
        /\ sql_result (sql_event state) = Some rows
        /\ error (sql_event state) = None
  | NHandleUserInput | NEnd => True
  end.

(** The load event a line asks for, when it is a well-formed load command. *)
Definition parse_load (line : string) : option DataLoadEvent :=
  if startswith (lower line) "/q" then None
  else if startswith (lower line) "/load" then
    match split_ws line with
    | [_; path; description] => Some (mkDataLoadEvent (Some path) (Some description))
    | _ => None
    end
  else None.

(** The load event asked for last along [replies], [current] when none is. *)
Fixpoint last_load_event (current : DataLoadEvent) (replies : list Reply)
  : DataLoadEvent :=
  match replies with
  | [] => current
  | UserLine line :: rest =>
      last_load_event (match parse_load line with
                       | Some ev => ev
                       | None => current
                       end) rest
  | _ :: rest => last_load_event current rest
  end.

(** The answers of [length tries] failed executions, each followed by a
    new query from the model, then of a successful execution and of the
    summary. *)
Fixpoint retried_replies (tries : list (string * string)) (rows : Rows)
         (summary : string) : list Reply :=
  match tries with
  | [] => [DbOutcome (inr rows); LlmText summary]
  | (e, text) :: rest =>
      DbOutcome (inl e) :: LlmText text :: retried_replies rest rows summary
  end.

(** The state a run ends in, the state it starts from when it breaks off. *)
Definition state_after (n : Node) (state : ChatState) (replies : list Reply)
  : ChatState :=
  match graph_run n state replies with
  | Some (_, state') => state'
  | None => state
  end.

(** A token of [split_ws]: not empty, no white space. *)
Definition is_token (w : string) : Prop :=
  w <> "" /\ all_chars (fun c => negb (is_space c)) w = true.

(** [c] does not occur in [s]. *)
Definition lacks_char (c : ascii) (s : string) : bool :=
  all_chars (fun d => negb (Ascii.eqb d c)) s.

(** ** The colours of the log ([logging_configs.py]) *)

Definition escape : string := String "027"%char "".

(** [ColoredFormatter.COLORS] and [ColoredFormatter.RESET] *)
Definition COLORS : list (string * string) :=
  [("DEBUG", escape ++ "[34m");
   ("INFO", escape ++ "[0m");
   ("WARNING", escape ++ "[93m");
   ("ERROR", escape ++ "[91m");
   ("CRITICAL", escape ++ "[0m")].

Definition RESET : string := escape ++ "[0m".

(** [d.get(key, default)] *)
Fixpoint dict_get (key : string) (d : list (string * string)) (default : string)
  : string :=
  match d with
  | [] => default
  | (k, v) :: rest => if String.eqb key k then v else dict_get key rest default
  end.

(** The text [ColoredFormatter.format] stores in [record.msg] before it
    hands the record to the base formatter. *)
Definition colored_msg (levelname msg : string) : string :=
  dict_get levelname COLORS RESET ++ msg ++ RESET.

(** ** Properties of the handlers *)

(** *** Query execution *)

Lemma execute_query_success_fields (state : ChatState) (rows : Rows) :
  execute_query state (inr rows)
  = mkChatState (conversation_history state)
      (mkSqlEvent (user_question (sql_event state)) (sql_text (sql_event state))
                  (Some rows) (llm_response (sql_event state)) None
                  (retry_count (sql_event state)))
      (data_load_event state) (table_schemas state) "post_execution".
Proof. reflexivity. Qed.

Lemma execute_query_failure_event (state : ChatState) (e : string) :
  sql_event (execute_query state (inl e))
  = mkSqlEvent (user_question (sql_event state)) (sql_text (sql_event state))
               None (llm_response (sql_event state)) (Some e)
               (retry_count (sql_event state) + 1).
Proof.
  unfold execute_query; cbn.
  destruct (MAX_RETRY_SQL_GENERATION <? retry_count (sql_event state) + 1)%Z;
    reflexivity.
Qed.

Lemma execute_query_gives_up (state : ChatState) (e : string) :
  (MAX_RETRY_SQL_GENERATION < retry_count (sql_event state) + 1)%Z ->
  conversation_history (execute_query state (inl e))
  = (conversation_history state ++ [mkMessage AIMessage give_up_text])%list
  /\ next_step (execute_query state (inl e)) = "handle_user_input".
Proof.
  intros Hgt. apply Z.ltb_lt in Hgt.
  unfold execute_query; cbn. rewrite Hgt. split; reflexivity.
Qed.

Lemma execute_query_retries (state : ChatState) (e : string) :
  (retry_count (sql_event state) + 1 <= MAX_RETRY_SQL_GENERATION)%Z ->
  conversation_history (execute_query state (inl e))
  = (conversation_history state ++ [mkMessage AIMessage (error_text e)])%list
  /\ next_step (execute_query state (inl e)) = "build_query".
Proof.
  intros Hle. apply Z.ltb_ge in Hle.
  unfold execute_query; cbn. rewrite Hle. split; reflexivity.
Qed.

Lemma execute_query_keeps_schemas (state : ChatState) (outcome : string + Rows) :
  table_schemas (execute_query state outcome) = table_schemas state.
Proof.
  unfold execute_query. destruct outcome as [e | rows]; cbn; [ | reflexivity ].
  destruct (MAX_RETRY_SQL_GENERATION <? retry_count (sql_event state) + 1)%Z;
    reflexivity.
Qed.

(** C10: a failed execution leaves no rows and records the error, a
    successful one records the rows and no error; after the handler the
    rows and the error are never both set. *)
Theorem execute_query_rows_or_error (state : ChatState) (outcome : string + Rows) :
  let state' := execute_query state outcome in
  match outcome with
  | inl e =>
      sql_result (sql_event state') = None
      /\ error (sql_event state') = Some e
  | inr rows =>
      sql_result (sql_event state') = Some rows
      /\ error (sql_event state') = None
  end
  /\ ~ (sql_result (sql_event state') <> None
        /\ error (sql_event state') <> None).
Proof.
  destruct outcome as [e | rows]; cbn zeta.
  - rewrite execute_query_failure_event; cbn.
    repeat split. intros [Hrows _]. now apply Hrows.
  - rewrite execute_query_success_fields; cbn.
    repeat split. intros [_ Herr]. now apply Herr.
Qed.

(** C7: when the retries are used up, the message sent is the fixed text
    [give_up_text]: it spells the name of the constant between braces and
    holds no digit, whatever the bound is. *)
Theorem give_up_message_has_no_bound (state : ChatState) (e : string) :
  (MAX_RETRY_SQL_GENERATION < retry_count (sql_event state) + 1)%Z ->
  conversation_history (execute_query state (inl e))
  = (conversation_history state ++ [mkMessage AIMessage give_up_text])%list
  /\ contains give_up_text "{MAX_RETRY_SQL_GENERATION}" = true
  /\ has_digit give_up_text = false.
Proof.
  intros Hgt. split; [ | split; reflexivity ].
  now apply execute_query_gives_up.
Qed.

(** *** Query building *)

Lemma build_query_sql_fields (state : ChatState) (text : string) :
  startswith text clarification_marker = false ->
  build_query state text
  = let query_text := strip (remove_all "```" (remove_all "```sql" text)) in
    mkChatState (conversation_history state ++ [mkMessage AIMessage query_text])
      (mkSqlEvent (user_question (sql_event state)) (Some query_text)
                  (sql_result (sql_event state)) (llm_response (sql_event state))
                  (error (sql_event state)) (retry_count (sql_event state)))
      (data_load_event state) (table_schemas state) "execute_query".
Proof. intros Hsql. unfold build_query. rewrite Hsql. reflexivity. Qed.

Lemma build_query_clarification_fields (state : ChatState) (text : string) :
  startswith text clarification_marker = true ->
  build_query state text
  = mkChatState
      (conversation_history state
       ++ [mkMessage AIMessage
             ("Your question is ambiguous. Please provide additional details: "
              ++ strip (nth 1 (split_on clarification_marker text) ""))])
      (sql_event state) (data_load_event state) (table_schemas state)
      "handle_user_input".
Proof. intros Hc. unfold build_query. rewrite Hc. reflexivity. Qed.

(** *** The retry loop in the graph *)

Lemma step_execute_retry (state : ChatState) (e : string) :
  (retry_count (sql_event state) + 1 <= MAX_RETRY_SQL_GENERATION)%Z ->
  graph_step NExecuteQuery state (DbOutcome (inl e))
  = Some (NBuildQuery, execute_query state (inl e)).
Proof.
  intros Hle. unfold graph_step, run_handler, successor, route_to_next_step.
  destruct (execute_query_retries state e Hle) as [_ Hnext].
  rewrite Hnext. reflexivity.
Qed.

Lemma step_execute_give_up (state : ChatState) (e : string) :
  (MAX_RETRY_SQL_GENERATION < retry_count (sql_event state) + 1)%Z ->
  graph_step NExecuteQuery state (DbOutcome (inl e))
  = Some (NHandleUserInput, execute_query state (inl e)).
Proof.
  intros Hgt. unfold graph_step, run_handler, successor, route_to_next_step.
  destruct (execute_query_gives_up state e Hgt) as [_ Hnext].
  rewrite Hnext. reflexivity.
Qed.

Lemma step_build_sql (state : ChatState) (text : string) :
  startswith text clarification_marker = false ->
  graph_step NBuildQuery state (LlmText text)
  = Some (NExecuteQuery, build_query state text).
Proof.
  intros Hsql. unfold graph_step, run_handler, successor, route_to_next_step.
  rewrite (build_query_sql_fields state text Hsql). reflexivity.
Qed.

Lemma failing_run (tries : list (string * string)) (last_error : string) :
  forall state : ChatState,
    (retry_count (sql_event state) + Z.of_nat (length tries)
     = MAX_RETRY_SQL_GENERATION)%Z ->
    Forall answers_with_sql tries ->
    nodes_entered NExecuteQuery state (failing_replies tries last_error)
    = (retry_cycle (length tries) ++ [NHandleUserInput])%list
    /\ exists state' earlier,
        graph_run NExecuteQuery state (failing_replies tries last_error)
        = Some (NHandleUserInput, state')
        /\ (retry_count (sql_event state') = MAX_RETRY_SQL_GENERATION + 1)%Z
        /\ conversation_history state'
           = (earlier ++ [mkMessage AIMessage give_up_text])%list.
Proof.
  induction tries as [ | [e text] rest IH ]; intros state Hcount Hsql.
  - cbn [length Z.of_nat] in Hcount.
    assert (Hgt : (MAX_RETRY_SQL_GENERATION < retry_count (sql_event state) + 1)%Z)
      by lia.
    cbn [failing_replies nodes_entered graph_run retry_cycle length app].
    rewrite (step_execute_give_up state last_error Hgt).
    split; [ reflexivity | ].
    exists (execute_query state (inl last_error)), (conversation_history state).
    split; [ reflexivity | split ].
    + rewrite execute_query_failure_event. cbn. lia.
    + now apply execute_query_gives_up.
  - inversion Hsql as [ | try tl Htext Hrest ]; subst.
    unfold answers_with_sql in Htext; cbn [snd] in Htext.
    cbn [length] in Hcount. rewrite Nat2Z.inj_succ in Hcount.
    assert (Hle : (retry_count (sql_event state) + 1 <= MAX_RETRY_SQL_GENERATION)%Z)
      by lia.
    cbn [failing_replies nodes_entered graph_run retry_cycle length app].
    rewrite (step_execute_retry state e Hle).
    rewrite (step_build_sql (execute_query state (inl e)) text Htext).
    destruct (IH (build_query (execute_query state (inl e)) text)) as [Hpath Hrun].
    + rewrite (build_query_sql_fields _ text Htext). cbn [sql_event retry_count].
      rewrite execute_query_failure_event. cbn [retry_count]. lia.
    + exact Hrest.
    + split; [ rewrite Hpath; reflexivity | exact Hrun ].
Qed.

Lemma count_execute_retry_cycle (k : nat) :
  count_node NExecuteQuery (retry_cycle k ++ [NHandleUserInput]) = k.
Proof.
  induction k as [ | k IH ]; [ reflexivity | ].
  unfold count_node in *. cbn. now rewrite IH.
Qed.

(** C1: a failed execution adds one to the retry count; it gives up (a
    give-up message, back to intake) exactly when the new count is above
    the bound, and asks for a new query otherwise; a successful execution
    never gives up.  So, for a bound [0 <= N] and an attempt that starts
    with count 0, when every execution fails and the model keeps answering
    with a query, the graph runs the execution stage N+1 times and only
    then returns to intake. *)
Theorem execute_query_attempts_before_give_up
  (state : ChatState) (tries : list (string * string)) (last_error : string) :
  (0 <= MAX_RETRY_SQL_GENERATION)%Z ->
  retry_count (sql_event state) = 0%Z ->
  length tries = Z.to_nat MAX_RETRY_SQL_GENERATION ->
  Forall answers_with_sql tries ->
  (forall (st : ChatState) (e : string),
      let st' := execute_query st (inl e) in
      (retry_count (sql_event st') = retry_count (sql_event st) + 1)%Z
      /\ ((MAX_RETRY_SQL_GENERATION < retry_count (sql_event st'))%Z ->
          conversation_history st'
          = (conversation_history st ++ [mkMessage AIMessage give_up_text])%list
          /\ next_step st' = "handle_user_input")
      /\ ((retry_count (sql_event st') <= MAX_RETRY_SQL_GENERATION)%Z ->
          conversation_history st'
          = (conversation_history st ++ [mkMessage AIMessage (error_text e)])%list
          /\ next_step st' = "build_query"))
  /\ (forall (st : ChatState) (rows : Rows),
        next_step (execute_query st (inr rows)) = "post_execution")
  /\ nodes_entered NExecuteQuery state (failing_replies tries last_error)
     = (retry_cycle (Z.to_nat MAX_RETRY_SQL_GENERATION) ++ [NHandleUserInput])%list
  /\ count_node NExecuteQuery
       (NExecuteQuery :: nodes_entered NExecuteQuery state
                           (failing_replies tries last_error))
     = Z.to_nat (MAX_RETRY_SQL_GENERATION + 1)
  /\ exists state' earlier,
      graph_run NExecuteQuery state (failing_replies tries last_error)
      = Some (NHandleUserInput, state')
      /\ (retry_count (sql_event state') = MAX_RETRY_SQL_GENERATION + 1)%Z
      /\ conversation_history state'
         = (earlier ++ [mkMessage AIMessage give_up_text])%list.
Proof.
  intros Hbound Hfresh Hlen Hsql.
  destruct (failing_run tries last_error state) as [Hpath Hrun];
    [ rewrite Hfresh, Hlen; lia | exact Hsql | ].
  split; [ | split; [ | split; [ | split ] ] ].
  - intros st e st'. subst st'. rewrite execute_query_failure_event. cbn.
    split; [ reflexivity | split ]; intros Hcmp.
    + now apply execute_query_gives_up.
    + now apply execute_query_retries.
  - reflexivity.
  - rewrite Hpath, Hlen. reflexivity.
  - rewrite Hpath. change (count_node NExecuteQuery (NExecuteQuery :: ?l))
      with (S (count_node NExecuteQuery l)).
    rewrite count_execute_retry_cycle, Hlen. lia.
  - exact Hrun.
Qed.

(** *** The clarification marker *)

Lemma split_on_aux_nonempty (sep s : string) :
  forall skip : nat, split_on_aux sep skip s <> [].
Proof.
  induction s as [ | c r IH ]; intros skip; cbn [split_on_aux].
  - discriminate.
  - destruct skip as [ | k ]; [ | apply IH ].
    destruct (String.prefix sep (String c r)); [ discriminate | ].
    destruct (split_on_aux sep 0 r); discriminate.
Qed.

(** A text that starts with the marker always has a second piece: the
    index 1 of the handler is in range. *)
Lemma split_on_marker_second (text : string) :
  startswith text clarification_marker = true ->
  2 <= length (split_on clarification_marker text).
Proof.
  unfold startswith, split_on. intros Hstart.
  destruct text as [ | c r ]; [ discriminate | ].
  cbn [split_on_aux]. rewrite Hstart. cbn [length].
  pose proof (split_on_aux_nonempty clarification_marker r
                (String.length clarification_marker - 1)) as Hne.
  destruct (split_on_aux clarification_marker
              (String.length clarification_marker - 1) r);
    [ contradiction | cbn [length]; lia ].
Qed.

(** *** Code fences *)

Lemma append_empty_r (s : string) : s ++ "" = s.
Proof. induction s as [ | c r IH ]; cbn; [ reflexivity | now rewrite IH ]. Qed.

Lemma append_assoc (s t u : string) : (s ++ t) ++ u = s ++ (t ++ u).
Proof. induction s as [ | c r IH ]; cbn; [ reflexivity | now rewrite IH ]. Qed.

Lemma prefix_iff (p s : string) :
  String.prefix p s = true <-> exists w, s = p ++ w.
Proof.
  revert s. induction p as [ | a p IH ]; intros s.
  - split; [ intros _; now exists s | intros _; now destruct s ].
  - destruct s as [ | b s ]; cbn [String.prefix append].
    + split; [ discriminate | intros [w Hw]; discriminate Hw ].
    + destruct (ascii_dec a b) as [ <- | Hdiff ].
      * rewrite IH. split; intros [w Hw]; exists w.
        -- now rewrite Hw.
        -- now injection Hw.
      * split; [ discriminate | ].
        intros [w Hw]. injection Hw as Hhead _. now symmetry in Hhead.
Qed.

Lemma contains_append (a w p : string) :
  contains a p = true -> contains (a ++ w) p = true.
Proof.
  induction a as [ | c a IH ]; cbn [contains append]; intros Hin.
  - rewrite orb_false_r in Hin. apply prefix_iff in Hin as [u Hu].
    destruct p; [ | discriminate Hu ].
    destruct w; reflexivity.
  - apply orb_true_iff in Hin as [Hhere | Hlater].
    + apply prefix_iff in Hhere as [u Hu].
      apply orb_true_iff. left. apply prefix_iff. exists (u ++ w).
      change (String c (a ++ w)) with (String c a ++ w).
      now rewrite Hu, append_assoc.
    + apply orb_true_iff. right. now apply IH.
Qed.

Lemma contains_lstrip (s p : string) :
  contains (lstrip s) p = true -> contains s p = true.
Proof.
  induction s as [ | c r IH ]; cbn [lstrip]; [ trivial | ].
  destruct (is_space c); [ | trivial ].
  intros Hin. cbn [contains]. apply orb_true_iff. right. now apply IH.
Qed.

Lemma rstrip_is_prefix (s : string) : exists w, s = rstrip s ++ w.
Proof.
  induction s as [ | c r [w Hw] ]; cbn [rstrip]; [ now exists "" | ].
  destruct (rstrip r) as [ | d r' ].
  - destruct (is_space c); [ now exists (String c r) | ].
    exists r. reflexivity.
  - exists w. cbn [append] in *. now rewrite <- Hw.
Qed.

Lemma contains_strip (s p : string) :
  contains (strip s) p = true -> contains s p = true.
Proof.
  unfold strip. intros Hin. apply contains_lstrip.
  destruct (rstrip_is_prefix (lstrip s)) as [w Hw].
  rewrite Hw. now apply contains_append.
Qed.

Lemma unfenced_starts_with_tick (x w : string) :
  remove_aux fence 0 x = "`" ++ w -> exists w', x = "`" ++ w'.
Proof.
  destruct x as [ | c rest ]; cbn [remove_aux]; [ discriminate | ].
  destruct (String.prefix fence (String c rest)) eqn:Hfence.
  - apply prefix_iff in Hfence as [u Hu]. intros _.
    rewrite Hu. now exists ("``" ++ u).
  - intros Heq. injection Heq as -> _. now exists rest.
Qed.

Lemma unfenced_starts_with_two_ticks (x w : string) :
  remove_aux fence 0 x = "``" ++ w -> exists w', x = "``" ++ w'.
Proof.
  destruct x as [ | c rest ]; cbn [remove_aux]; [ discriminate | ].
  destruct (String.prefix fence (String c rest)) eqn:Hfence.
  - apply prefix_iff in Hfence as [u Hu]. intros _.
    rewrite Hu. now exists ("`" ++ u).
  - intros Heq. injection Heq as -> Hrest.
    apply (unfenced_starts_with_tick rest w) in Hrest as [w' ->].
    now exists w'.
Qed.

(** Removing the fences from left to right leaves no fence behind. *)
Lemma remove_fence_leaves_none (s : string) :
  forall skip : nat, contains (remove_aux fence skip s) fence = false.
Proof.
  induction s as [ | c rest IH ]; intros skip; cbn [remove_aux]; [ reflexivity | ].
  destruct skip as [ | k ]; [ | apply IH ].
  destruct (String.prefix fence (String c rest)) eqn:Hfence; [ apply IH | ].
  cbn [contains]. rewrite IH, orb_false_r.
  destruct (String.prefix fence (String c (remove_aux fence 0 rest))) eqn:Hhead;
    [ | reflexivity ].
  apply prefix_iff in Hhead as [u Hu]. injection Hu as -> Hrest.
  apply (unfenced_starts_with_two_ticks rest u) in Hrest as [w' ->].
  assert (Hstart : String.prefix fence (String "`" ("``" ++ w')) = true)
    by (apply prefix_iff; now exists w').
  congruence.
Qed.

(** C3: an answer that starts with the clarification marker makes the
    handler send the clarification as an assistant message and return to
    intake without writing the query text; any other answer is cleared of
    its code fences and of the white space around it, stored as the query
    text, sent as an assistant message, and routed to execution. *)
Theorem build_query_clarification_or_sql (state : ChatState) (llm_text : string) :
  let state' := build_query state llm_text in
  (startswith llm_text clarification_marker = true ->
     2 <= length (split_on clarification_marker llm_text)
     /\ conversation_history state'
        = (conversation_history state
           ++ [mkMessage AIMessage
                 ("Your question is ambiguous. Please provide additional details: "
                  ++ strip (nth 1 (split_on clarification_marker llm_text) ""))])%list
     /\ next_step state' = "handle_user_input"
     /\ sql_event state' = sql_event state
     /\ (sql_text (sql_event state) = None -> sql_text (sql_event state') = None))
  /\ (startswith llm_text clarification_marker = false ->
       let query_text := strip (remove_all "```" (remove_all "```sql" llm_text)) in
       sql_text (sql_event state') = Some query_text
       /\ contains query_text "```" = false
       /\ conversation_history state'
          = (conversation_history state ++ [mkMessage AIMessage query_text])%list
       /\ next_step state' = "execute_query").
Proof.
  cbn zeta. split; intros Hmarker.
  - rewrite (build_query_clarification_fields state llm_text Hmarker).
    cbn [conversation_history next_step sql_event].
    split; [ now apply split_on_marker_second | ].
    repeat split. intros Hunset; exact Hunset.
  - rewrite (build_query_sql_fields state llm_text Hmarker).
    cbn [conversation_history next_step sql_event sql_text].
    split; [ reflexivity | ]. split; [ | split; reflexivity ].
    destruct (contains (strip (remove_all "```" (remove_all "```sql" llm_text))) "```")
      eqn:Hleft; [ | reflexivity ].
    apply contains_strip in Hleft.
    unfold remove_all in Hleft at 1.
    now rewrite (remove_fence_leaves_none _ 0) in Hleft.
Qed.

(** *** Intake *)

Lemma load_command_is_no_quit (s : string) :
  startswith s "/load" = true -> startswith s "/q" = false.
Proof.
  unfold startswith.
  destruct s as [ | a [ | b r ] ]; cbn [String.prefix]; try discriminate.
  - destruct (ascii_dec "/" a); discriminate.
  - destruct (ascii_dec "/" a); [ | discriminate ].
    destruct (ascii_dec "l" b) as [ <- | ]; [ | discriminate ].
    intros _. reflexivity.
Qed.

Lemma three_tokens_or_not (tokens : list string) :
  (exists a b c, tokens = [a; b; c]) \/ length tokens <> 3.
Proof.
  destruct tokens as [ | a [ | b [ | c [ | d rest ] ] ] ]; cbn;
    try (right; lia).
  left. now exists a, b, c.
Qed.

Lemma post_execution_fields (state : ChatState) (text question : string) :
  user_question (sql_event state) = Some question ->
  post_execution state text
  = Some
      (set_next_step
         (set_sql_event
            (update_conversation_history
               (update_conversation_history state
                  (mkMessage AIMessage
                     ("SQL results are: "
                      ++ format_result (sql_result (sql_event state)))))
               (mkMessage AIMessage text))
            (mkSqlEvent (user_question (sql_event state)) (sql_text (sql_event state))
               (sql_result (sql_event state)) (Some text)
               (error (sql_event state)) (retry_count (sql_event state))))
         "handle_user_input").
Proof.
  intros Hquestion. unfold post_execution.
  cbn [sql_event update_conversation_history]. rewrite Hquestion. reflexivity.
Qed.

Lemma post_execution_without_question (state : ChatState) (text : string) :
  user_question (sql_event state) = None ->
  post_execution state text = None.
Proof.
  intros Hquestion. unfold post_execution.
  cbn [sql_event update_conversation_history]. now rewrite Hquestion.
Qed.

(** The handlers take exactly the paths listed in [branch]. *)
Lemma run_handler_branch (n : Node) (state : ChatState) (r : Reply)
      (state' : ChatState) :
  run_handler n state r = Some state' -> branch n state r state'.
Proof.
  destruct n, r; cbn [run_handler]; try discriminate.
  - (* handle_user_input *)
    unfold handle_user_input.
    destruct (conversation_history state) as [ | m0 ms ] eqn:Hhist;
      [ discriminate | ].
    assert (Hne : conversation_history state <> []) by (rewrite Hhist; discriminate).
    destruct (startswith (lower line) "/q") eqn:Hq.
    { intros [= <-]. now apply intake_quit. }
    destruct (startswith (lower line) "/load") eqn:Hload.
    { destruct (three_tokens_or_not (split_ws line)) as [ (a & b & c & Htok) | Hlen ].
      - rewrite Htok. intros [= <-]. now apply intake_load with (marker := a).
      - intros [= <-].
        replace (match split_ws line with
                 | [_; path; description] => _
                 | _ => set_next_step state "handle_user_input"
                 end) with (set_next_step state "handle_user_input").
        + now apply intake_malformed_load.
        + destruct (split_ws line) as [ | a [ | b [ | c [ | d rest ] ] ] ];
            try reflexivity.
          now contradiction Hlen. }
    destruct (String.eqb (table_schemas state) "") eqn:Hschemas.
    { apply String.eqb_eq in Hschemas. intros [= <-]. now apply intake_no_schema. }
    apply String.eqb_neq in Hschemas. intros [= <-]. now apply intake_question.
  - (* load_data *)
    unfold load_data. destruct (data_load_event state) as [[path | ] [description | ]] eqn:Hev;
      cbn [file_path table_columns_description]; try discriminate.
    intros [= <-]. now apply load_done with (description := description).
  - (* build_query *)
    intros [= <-]. unfold build_query.
    destruct (startswith text clarification_marker) eqn:Hmarker.
    + now apply build_clarification.
    + now apply build_sql.
  - (* execute_query *)
    intros [= <-]. unfold execute_query. destruct outcome as [e | rows].
    + cbn [sql_event set_sql_event retry_count].
      destruct (MAX_RETRY_SQL_GENERATION <? retry_count (sql_event state) + 1)%Z eqn:Hcmp.
      * apply Z.ltb_lt in Hcmp. now apply execute_give_up.
      * apply Z.ltb_ge in Hcmp. now apply execute_retry.
    + apply execute_success.
  - (* post_execution *)
    destruct (user_question (sql_event state)) as [ question | ] eqn:Hquestion.
    + rewrite (post_execution_fields state text question Hquestion).
      intros [= <-]. now apply narration_done with (question := question).
    + rewrite (post_execution_without_question state text Hquestion).
      discriminate.
Qed.

Lemma branch_run_handler (n : Node) (state : ChatState) (r : Reply)
      (state' : ChatState) :
  branch n state r state' -> run_handler n state r = Some state'.
Proof.
  intros Hbranch.
  destruct Hbranch as
    [ state line Hne Hq
    | state line marker path description Hne Hq Hload Htok
    | state line Hne Hq Hload Hlen
    | state line Hne Hq Hload Hschemas
    | state line Hne Hq Hload Hschemas
    | state meta path description Hev
    | state text Hmarker
    | state text Hmarker
    | state rows
    | state e Hcmp
    | state e Hcmp
    | state text question Hquestion ];
    cbn [run_handler].
  - unfold handle_user_input.
    destruct (conversation_history state); [ contradiction | ].
    now rewrite Hq.
  - unfold handle_user_input.
    destruct (conversation_history state); [ contradiction | ].
    now rewrite Hq, Hload, Htok.
  - unfold handle_user_input.
    destruct (conversation_history state); [ contradiction | ].
    rewrite Hq, Hload.
    destruct (split_ws line) as [ | a [ | b [ | c [ | d rest ] ] ] ];
      try reflexivity.
    now contradiction Hlen.
  - unfold handle_user_input.
    destruct (conversation_history state); [ contradiction | ].
    rewrite Hq, Hload, Hschemas. reflexivity.
  - unfold handle_user_input.
    destruct (conversation_history state); [ contradiction | ].
    apply String.eqb_neq in Hschemas.
    now rewrite Hq, Hload, Hschemas.
  - unfold load_data. now rewrite Hev.
  - now rewrite build_query_clarification_fields.
  - now rewrite build_query_sql_fields.
  - reflexivity.
  - apply Z.ltb_lt in Hcmp. unfold execute_query.
    cbn [sql_event set_sql_event retry_count]. now rewrite Hcmp.
  - apply Z.ltb_ge in Hcmp. unfold execute_query.
    cbn [sql_event set_sql_event retry_count]. now rewrite Hcmp.
  - exact (post_execution_fields state text question Hquestion).
Qed.

(** C5 (as amended): a load command that does not split into exactly
    three tokens sends the session back to intake and changes nothing
    else: no message is added to the history (the usage hint goes to the
    log only), no attempt is started, no load is recorded. *)
Theorem malformed_load_returns_to_intake (state : ChatState) (user_input : string) :
  conversation_history state <> [] ->
  startswith (lower user_input) "/load" = true ->
  length (split_ws user_input) <> 3 ->
  exists state',
    handle_user_input state user_input = Some state'
    /\ next_step state' = "handle_user_input"
    /\ conversation_history state' = conversation_history state
    /\ sql_event state' = sql_event state
    /\ data_load_event state' = data_load_event state
    /\ table_schemas state' = table_schemas state.
Proof.
  intros Hne Hload Hlen.
  exists (set_next_step state "handle_user_input"). split.
  - apply (branch_run_handler NHandleUserInput state (UserLine user_input)).
    apply intake_malformed_load; auto using load_command_is_no_quit.
  - repeat split.
Qed.

(** *** Steps of the graph *)

Lemma graph_step_branch (n : Node) (state : ChatState) (r : Reply)
      (n' : Node) (state' : ChatState) :
  graph_step n state r = Some (n', state') ->
  branch n state r state' /\ successor n state' = Some n'.
Proof.
  unfold graph_step.
  destruct (run_handler n state r) as [ st1 | ] eqn:Hrun; [ | discriminate ].
  destruct (successor n st1) as [ n1 | ] eqn:Hsucc; [ | discriminate ].
  intros [= <- <-]. split; [ now apply run_handler_branch | exact Hsucc ].
Qed.

(** Case analysis on a step: one goal for each branch, with the node
    that follows worked out. *)
Ltac step_cases H :=
  let Hbranch := fresh "Hbranch" in
  let Hsucc := fresh "Hsucc" in
  apply graph_step_branch in H; destruct H as [Hbranch Hsucc];
  destruct Hbranch; cbn in Hsucc; injection Hsucc as <-.

(** C9: whatever branch a handler takes, the [next_step] it leaves is one
    of the five stage names or the end marker, and it is a key of the
    path map of the node that ran: the router hands the graph a label it
    knows. *)
Theorem next_step_is_a_known_stage (n : Node) (state : ChatState) (r : Reply)
        (state' : ChatState) :
  run_handler n state r = Some state' ->
  In (next_step state') stage_names
  /\ In (route_to_next_step state') stage_names
  /\ exists n', successor n state' = Some n'.
Proof.
  intros Hrun. apply run_handler_branch in Hrun.
  destruct Hrun; unfold route_to_next_step; cbn;
    (split; [ tauto | split; [ tauto | eexists; reflexivity ] ]).
Qed.

Lemma reachable_invariant (n : Node) (state : ChatState) :
  reachable n state ->
  conversation_history state <> []
  /\ (query_stage n = true -> table_schemas state <> "").
Proof.
  induction 1 as [ | n state r n' state' Hreach [IHhist IHschemas] Hstep ].
  - split; [ discriminate | discriminate ].
  - step_cases Hstep; cbn;
      (split;
       [ try assumption; try (intros Heq; now apply app_eq_nil in Heq as [_ Heq])
       | try discriminate; try (intros _; auto) ]).
Qed.

(** C6: a line that is neither a quit nor a load command, typed while no
    schema is loaded, gets the load-first system message and a return to
    intake; the attempt record is untouched and the line is not added to
    the history.  Hence no session ever enters query building, execution
    or narration with empty schemas. *)
Theorem question_before_load_is_refused (state : ChatState) (user_input : string) :
  conversation_history state <> [] ->
  startswith (lower user_input) "/q" = false ->
  startswith (lower user_input) "/load" = false ->
  table_schemas state = "" ->
  (exists state',
      handle_user_input state user_input = Some state'
      /\ conversation_history state'
         = (conversation_history state
            ++ [mkMessage SystemMessage load_first_text])%list
      /\ next_step state' = "handle_user_input"
      /\ sql_event state' = sql_event state
      /\ table_schemas state' = "")
  /\ (forall (n : Node) (st : ChatState),
        reachable n st -> query_stage n = true -> table_schemas st <> "").
Proof.
  intros Hne Hq Hload Hschemas. split.
  - eexists. split.
    + apply (branch_run_handler NHandleUserInput state (UserLine user_input)).
      now apply intake_no_schema.
    + cbn. repeat split. exact Hschemas.
  - intros n st Hreach. now apply reachable_invariant.
Qed.

(** C2: a question that is accepted starts a new attempt record, with the
    line as its question and a retry count of 0.  Any handler run either
    starts such a new record, or keeps question and retry count as they
    are, or is a failed execution, which adds exactly one to the count. *)
Theorem retry_count_starts_at_zero_and_only_grows
        (state : ChatState) (user_input : string) :
  conversation_history state <> [] ->
  startswith (lower user_input) "/q" = false ->
  startswith (lower user_input) "/load" = false ->
  table_schemas state <> "" ->
  (exists state',
      handle_user_input state user_input = Some state'
      /\ sql_event state' = new_sql_event user_input
      /\ user_question (sql_event state') = Some user_input
      /\ retry_count (sql_event state') = 0%Z
      /\ next_step state' = "build_query")
  /\ (forall (n : Node) (st : ChatState) (r : Reply) (st' : ChatState),
        run_handler n st r = Some st' ->
        (exists line,
            n = NHandleUserInput /\ r = UserLine line
            /\ sql_event st' = new_sql_event line)
        \/ (user_question (sql_event st') = user_question (sql_event st)
            /\ retry_count (sql_event st') = retry_count (sql_event st))
        \/ (exists e,
              n = NExecuteQuery /\ r = DbOutcome (inl e)
              /\ user_question (sql_event st') = user_question (sql_event st)
              /\ (retry_count (sql_event st')
                  = retry_count (sql_event st) + 1)%Z)).
Proof.
  intros Hne Hq Hload Hschemas. split.
  - eexists. split.
    + apply (branch_run_handler NHandleUserInput state (UserLine user_input)).
      now apply intake_question.
    + cbn. repeat split.
  - intros n st r st' Hrun. apply run_handler_branch in Hrun.
    destruct Hrun; cbn;
      try (right; left; split; reflexivity).
    + left. eexists. repeat split.
    + right; right. eexists. repeat split.
    + right; right. eexists. repeat split.
Qed.

(** *** The history *)

(** C8 (as amended): a handler run keeps the history it found as a prefix
    of the history it leaves.  Intake adds nothing or one system or user
    message, loading adds one system message, query building one
    assistant message, execution nothing or one assistant message, and
    narration adds two assistant messages: the raw rows, then the
    summary. *)
Theorem history_grows_by_handler (n : Node) (state : ChatState) (r : Reply)
        (state' : ChatState) :
  run_handler n state r = Some state' ->
  exists added,
    conversation_history state' = (conversation_history state ++ added)%list
    /\ allowed_addition n added
    /\ (n = NPostExecution ->
        exists text,
          r = LlmText text
          /\ added
             = [mkMessage AIMessage
                  ("SQL results are: " ++ format_result (sql_result (sql_event state)));
                mkMessage AIMessage text]).
Proof.
  intros Hrun. apply run_handler_branch in Hrun.
  destruct Hrun; cbn [conversation_history set_next_step set_sql_event
                      set_data_load_event set_table_schemas
                      update_conversation_history allowed_addition].
  - exists []. rewrite app_nil_r. repeat split; [ now left | discriminate ].
  - exists []. rewrite app_nil_r. repeat split; [ now left | discriminate ].
  - exists []. rewrite app_nil_r. repeat split; [ now left | discriminate ].
  - eexists. split; [ reflexivity | split; [ | discriminate ] ].
    right. eexists. split; [ reflexivity | now left ].
  - eexists. split; [ reflexivity | split; [ | discriminate ] ].
    right. eexists. split; [ reflexivity | now right ].
  - eexists. split; [ reflexivity | split; [ | discriminate ] ].
    eexists. split; reflexivity.
  - eexists. split; [ reflexivity | split; [ | discriminate ] ].
    eexists. split; reflexivity.
  - eexists. split; [ reflexivity | split; [ | discriminate ] ].
    eexists. split; reflexivity.
  - exists []. rewrite app_nil_r. repeat split; [ now left | discriminate ].
  - eexists. split; [ reflexivity | split; [ | discriminate ] ].
    right. eexists. split; reflexivity.
  - eexists. split; [ reflexivity | split; [ | discriminate ] ].
    right. eexists. split; reflexivity.
  - eexists. split; [ rewrite <- app_assoc; reflexivity | split ].
    + do 2 eexists. repeat split.
    + intros _. eexists. split; reflexivity.
Qed.

(** *** The schemas *)

Lemma schemas_grow_by_step (n : Node) (state : ChatState) (r : Reply)
      (state' : ChatState) :
  run_handler n state r = Some state' ->
  exists added, table_schemas state' = table_schemas state ++ added.
Proof.
  intros Hrun. apply run_handler_branch in Hrun.
  destruct Hrun; cbn;
    solve [ exists ""; now rewrite append_empty_r | eexists; reflexivity ].
Qed.

(** Applies the induction hypothesis [IH] to the rest of the run, with
    [pending] as the line waiting for its load; what is left is the goal
    after rewriting and, when it is not plain, [pending_load]. *)
Ltac continue_run IH pending :=
  match goal with
  | Hrun : graph_run ?n1 ?st1 _ = Some _ |- _ =>
      let Hp := fresh "Hp" in
      assert (Hp : pending_load n1 st1 pending);
      [ try (intros Hn; discriminate Hn)
      | rewrite (IH n1 st1 pending _ _ Hp Hrun) ]
  end.

Lemma schemas_along_run (replies : list Reply) :
  forall (n : Node) (state : ChatState) (pending : option string)
         (n' : Node) (state' : ChatState),
    pending_load n state pending ->
    graph_run n state replies = Some (n', state') ->
    table_schemas state'
    = table_schemas state ++ concat_blocks (map block_of (loads_of pending replies)).
Proof.
  induction replies as [ | r rest IH ]; intros n state pending n' state' Hpend Hrun.
  - cbn in Hrun. injection Hrun as <- <-. cbn. now rewrite append_empty_r.
  - cbn [graph_run] in Hrun.
    destruct (graph_step n state r) as [ [n1 st1] | ] eqn:Hstep; [ | discriminate ].
    step_cases Hstep; cbn [loads_of].
    + continue_run IH (Some line). reflexivity.
    + continue_run IH (Some line); [ | reflexivity ].
      intros _. exists line. split; [ reflexivity | ].
      match goal with Htok : split_ws line = _ |- _ => rewrite Htok end.
      reflexivity.
    + continue_run IH (Some line). reflexivity.
    + continue_run IH (Some line). reflexivity.
    + continue_run IH (Some line). reflexivity.
    + destruct (Hpend eq_refl) as (line & -> & Hpath).
      match goal with
      | Hev : data_load_event state = _ |- _ => rewrite Hev in Hpath
      end.
      cbn in Hpath. injection Hpath as ->.
      continue_run IH (@None string).
      cbn [map concat_blocks block_of fst snd table_schemas set_next_step
           update_conversation_history set_table_schemas].
      now rewrite append_assoc.
    + continue_run IH (@None string). reflexivity.
    + continue_run IH (@None string). reflexivity.
    + continue_run IH (@None string). reflexivity.
    + continue_run IH (@None string). reflexivity.
    + continue_run IH (@None string). reflexivity.
    + continue_run IH (@None string). reflexivity.
Qed.

(** C4: after any run of the graph from the initial state, the schemas
    are the blocks of the loads of that run ("Table: ", the table name, a
    line break, the description text, a line break), one after the other
    in load order; and no handler run does anything to the schemas but
    add at their end. *)
Theorem schemas_are_the_loaded_blocks (replies : list Reply) (n : Node)
        (state : ChatState) :
  graph_run NHandleUserInput chat_state replies = Some (n, state) ->
  table_schemas state = concat_blocks (map block_of (loads_of None replies))
  /\ (forall (m : Node) (st : ChatState) (r : Reply) (st' : ChatState),
        run_handler m st r = Some st' ->
        exists added, table_schemas st' = table_schemas st ++ added)
  /\ (forall (st : ChatState) (meta path description : string),
        data_load_event st = mkDataLoadEvent (Some path) (Some description) ->
        exists st',
          load_data st meta = Some st'
          /\ table_schemas st'
             = table_schemas st
               ++ ("Table: " ++ splitext_root (basename path) ++ newline
                   ++ meta ++ newline)).
Proof.
  intros Hrun. split; [ | split ].
  - rewrite (schemas_along_run replies NHandleUserInput chat_state None n state);
      [ reflexivity | intros H; discriminate H | exact Hrun ].
  - intros m st r st'. apply schemas_grow_by_step.
  - intros st meta path description Hev. eexists. split.
    + apply (branch_run_handler NLoadData st (FileText meta)).
      exact (load_done st meta path description Hev).
    + reflexivity.
Qed.

(** ** Sessions as a whole *)

Lemma reachable_after_run (replies : list Reply) :
  forall (n : Node) (state : ChatState) (n' : Node) (state' : ChatState),
    reachable n state ->
    graph_run n state replies = Some (n', state') ->
    reachable n' state'.
Proof.
  induction replies as [ | r rest IH ]; intros n state n' state' Hreach Hrun.
  - cbn in Hrun. now injection Hrun as <- <-.
  - cbn [graph_run] in Hrun.
    destruct (graph_step n state r) as [ [n1 st1] | ] eqn:Hstep; [ | discriminate ].
    apply (IH n1 st1); [ | exact Hrun ].
    now apply (reachable_step n state r).
Qed.

Lemma session_is_reachable (replies : list Reply) (n : Node) (state : ChatState) :
  graph_run NHandleUserInput chat_state replies = Some (n, state) ->
  reachable n state.
Proof. apply reachable_after_run, reachable_start. Qed.

Lemma stage_ready_step (n : Node) (state : ChatState) (r : Reply)
      (n' : Node) (state' : ChatState) :
  stage_ready n state ->
  graph_step n state r = Some (n', state') ->
  stage_ready n' state'.
Proof.
  intros Hready Hstep. step_cases Hstep; cbn in *; trivial.
  - now exists path, description.
  - now exists line.
  - destruct Hready as [question Hquestion].
    exists question, (strip (remove_all "```" (remove_all "```sql" text))),
      (conversation_history state).
    repeat split; [ exact Hquestion | ].
    destruct (contains (strip (remove_all "```" (remove_all "```sql" text))) "```")
      eqn:Hleft; [ | reflexivity ].
    apply contains_strip in Hleft. unfold remove_all in Hleft at 1.
    now rewrite (remove_fence_leaves_none _ 0) in Hleft.
  - destruct Hready as (question & query & _ & Hquestion & Hquery & _).
    now exists question, query, rows.
  - destruct Hready as (question & _ & _ & Hquestion & _).
    now exists question.
Qed.

Lemma reachable_stage_ready (n : Node) (state : ChatState) :
  reachable n state -> stage_ready n state.
Proof.
  induction 1 as [ | n state r n' state' _ IH Hstep ]; [ exact I | ].
  exact (stage_ready_step n state r n' state' IH Hstep).
Qed.

(** X1: along any session, each stage finds what its handler reads.  The
    load stage has both paths; query building has a question; execution
    has a question and a query text that is free of code fences and is the
    last message of the history; narration has question, query and rows,
    no error, and the four messages it sends to the model. *)
Theorem stages_find_their_inputs (replies : list Reply) (n : Node)
        (state : ChatState) :
  graph_run NHandleUserInput chat_state replies = Some (n, state) ->
  stage_ready n state
  /\ (n = NPostExecution ->
      exists question query rows,
        interpret_msgs state
        = Some
            [mkMessage SystemMessage
               ("You are an intelligent assistant that summarizes SQL query results based on "
                ++ "given table schemas. " ++ newline
                ++ "Table Schemas: " ++ table_schemas state);
             mkMessage HumanMessage question;
             mkMessage AIMessage ("Generated SQL Text is: " ++ query);
             mkMessage AIMessage ("SQL results are: " ++ show_rows rows)]).
Proof.
  intros Hrun. apply session_is_reachable, reachable_stage_ready in Hrun.
  split; [ exact Hrun | ].
  intros ->. destruct Hrun as (question & query & rows & Hq & Hsql & Hrows & _).
  exists question, query, rows.
  unfold interpret_msgs. now rewrite Hq, Hsql, Hrows.
Qed.

Lemma successor_after_branch (n : Node) (state : ChatState) (r : Reply)
      (state' : ChatState) :
  branch n state r state' -> exists n', successor n state' = Some n'.
Proof. intros Hbranch. destruct Hbranch; cbn; eexists; reflexivity. Qed.

Lemma handle_user_input_returns (state : ChatState) (line : string) :
  conversation_history state <> [] ->
  exists state', handle_user_input state line = Some state'.
Proof.
  intros Hne. unfold handle_user_input.
  destruct (conversation_history state); [ contradiction | ].
  eexists; reflexivity.
Qed.

Lemma graph_step_of_run_handler (n : Node) (state : ChatState) (r : Reply)
      (state' : ChatState) :
  run_handler n state r = Some state' ->
  exists n', graph_step n state r = Some (n', state').
Proof.
  intros Hrun. unfold graph_step. rewrite Hrun.
  destruct (successor_after_branch n state r state'
              (run_handler_branch n state r state' Hrun)) as [n' Hsucc].
  exists n'. now rewrite Hsucc.
Qed.

(** X2: a session never gets stuck before its end.  In every
    configuration it reaches, the handler of the current node returns on
    every answer of the kind it waits for and the graph has a next node;
    after a load and after a narration that node is intake.  At the end
    node nothing runs any more. *)
Theorem session_makes_progress (replies : list Reply) (n : Node)
        (state : ChatState) :
  graph_run NHandleUserInput chat_state replies = Some (n, state) ->
  match n with
  | NHandleUserInput =>
      forall line, exists n' state',
        graph_step n state (UserLine line) = Some (n', state')
  | NLoadData =>
      forall meta, exists state',
        graph_step n state (FileText meta) = Some (NHandleUserInput, state')
  | NBuildQuery =>
      forall text, exists n' state',
        graph_step n state (LlmText text) = Some (n', state')
  | NExecuteQuery =>
      forall outcome, exists n' state',
        graph_step n state (DbOutcome outcome) = Some (n', state')
  | NPostExecution =>
      forall text, exists state',
        graph_step n state (LlmText text) = Some (NHandleUserInput, state')
  | NEnd => forall r, graph_step n state r = None
  end.
Proof.
  intros Hrun. apply session_is_reachable in Hrun.
  pose proof (reachable_stage_ready n state Hrun) as Hready.
  destruct (reachable_invariant n state Hrun) as [Hhist _].
  destruct n; cbn in Hready.
  - intros line.
    destruct (handle_user_input_returns state line Hhist) as [state' Hstate'].
    destruct (graph_step_of_run_handler NHandleUserInput state (UserLine line)
                state' Hstate') as [n' Hstep].
    now exists n', state'.
  - intros meta. destruct Hready as (path & description & Hev).
    eexists. unfold graph_step, run_handler, load_data. rewrite Hev. reflexivity.
  - intros text.
    destruct (graph_step_of_run_handler NBuildQuery state (LlmText text)
                (build_query state text) eq_refl) as [n' Hstep].
    now exists n', (build_query state text).
  - intros outcome.
    destruct (graph_step_of_run_handler NExecuteQuery state (DbOutcome outcome)
                (execute_query state outcome) eq_refl) as [n' Hstep].
    now exists n', (execute_query state outcome).
  - intros text. destruct Hready as (question & _ & _ & Hquestion & _).
    eexists. unfold graph_step. cbn [run_handler].
    rewrite (post_execution_fields state text question Hquestion). reflexivity.
  - intros r. unfold graph_step. cbn [run_handler]. reflexivity.
Qed.

(** Reads the fields of a state written by the handlers. *)
Ltac state_fields :=
  cbn [conversation_history sql_event data_load_event table_schemas next_step
       set_next_step set_sql_event set_data_load_event set_table_schemas
       update_conversation_history new_sql_event
       user_question sql_text sql_result llm_response error retry_count] in *.

Lemma retry_count_bounds (n : Node) (state : ChatState) :
  reachable n state ->
  (0 <= retry_count (sql_event state) <= Z.max MAX_RETRY_SQL_GENERATION 0 + 1)%Z
  /\ (n = NBuildQuery \/ n = NExecuteQuery ->
      (retry_count (sql_event state) <= Z.max MAX_RETRY_SQL_GENERATION 0)%Z).
Proof.
  induction 1 as [ | n state r n' state' _ [IHall IHquery] Hstep ].
  - cbn [chat_state sql_event retry_count].
    split; [ lia | intros [Hnode | Hnode]; discriminate Hnode ].
  - step_cases Hstep; state_fields;
      try (split; [ lia | intros [Hnode | Hnode]; discriminate Hnode ]).
    + split; [ lia | intros _; lia ].
    + split; [ lia | intros _; apply IHquery; now left ].
    + specialize (IHquery (or_intror eq_refl)).
      split; [ lia | intros [Hnode | Hnode]; discriminate Hnode ].
    + specialize (IHquery (or_intror eq_refl)).
      split; [ lia | intros _; lia ].
Qed.

(** X3: whatever the user, the model and the engine answer, the retry
    count of a session stays between 0 and max(N, 0) + 1, N being the
    bound, and it is at most max(N, 0) whenever a query is about to be
    built or executed: no question gets more than max(N, 0) + 1
    executions. *)
Theorem retry_count_stays_within_bound (replies : list Reply) (n : Node)
        (state : ChatState) :
  graph_run NHandleUserInput chat_state replies = Some (n, state) ->
  (0 <= retry_count (sql_event state) <= Z.max MAX_RETRY_SQL_GENERATION 0 + 1)%Z
  /\ (n = NBuildQuery \/ n = NExecuteQuery ->
      (retry_count (sql_event state) <= Z.max MAX_RETRY_SQL_GENERATION 0)%Z).
Proof. intros Hrun. now apply session_is_reachable, retry_count_bounds in Hrun. Qed.

(** X4: the graph moves along the edges of [graph_edges] only, from any
    state: a load and a narration go back to intake, execution follows
    query building only, narration follows execution only, and the end
    follows intake only.  With some rows at hand, each of these edges is
    taken by some step. *)
Theorem graph_follows_its_edges (sample : Rows) :
  (forall (n : Node) (state : ChatState) (r : Reply) (n' : Node) (state' : ChatState),
      graph_step n state r = Some (n', state') -> In (n, n') graph_edges)
  /\ (forall n n', In (n, n') graph_edges ->
        exists state r state', graph_step n state r = Some (n', state')).
Proof.
  split.
  - intros n state r n' state' Hstep. step_cases Hstep; cbn; tauto.
  - intros n n' Hedge. cbn in Hedge.
    repeat (destruct Hedge as [ [= <- <-] | Hedge ]); [ .. | contradiction ].
    + exists chat_state, (UserLine "total sales"). eexists. reflexivity.
    + exists chat_state, (UserLine "/load sales.csv meta.txt"). eexists. reflexivity.
    + exists loaded_state, (UserLine "total sales"). eexists. reflexivity.
    + exists chat_state, (UserLine "/q"). eexists. reflexivity.
    + exists (set_data_load_event chat_state
                (mkDataLoadEvent (Some "sales.csv") (Some "meta.txt"))),
        (FileText "columns: id"). eexists. reflexivity.
    + exists loaded_state, (LlmText "[CLARIFICATION] Which year?").
      eexists. reflexivity.
    + exists loaded_state, (LlmText "SELECT 1"). eexists. reflexivity.
    + exists (set_sql_event loaded_state
                (mkSqlEvent None None None None None (MAX_RETRY_SQL_GENERATION - 1))),
        (DbOutcome (inl "error")).
      eexists. apply step_execute_retry. cbn. lia.
    + exists loaded_state, (DbOutcome (inr sample)). eexists. reflexivity.
    + exists (set_sql_event loaded_state
                (mkSqlEvent None None None None None MAX_RETRY_SQL_GENERATION)),
        (DbOutcome (inl "error")).
      eexists. apply step_execute_give_up. cbn. lia.
    + exists (set_sql_event loaded_state (new_sql_event "total sales")),
        (LlmText "42 in total").
      eexists. reflexivity.
Qed.

(** ** Commands *)

Lemma step_quit (state : ChatState) (line : string) :
  conversation_history state <> [] ->
  startswith (lower line) "/q" = true ->
  graph_step NHandleUserInput state (UserLine line)
  = Some (NEnd, set_next_step state "END").
Proof.
  intros Hne Hq. unfold graph_step.
  rewrite (branch_run_handler _ _ _ _ (intake_quit state line Hne Hq)).
  reflexivity.
Qed.

(** X5: a line whose lower-case form starts with "/q" ends the session,
    whatever follows on the line and whatever is loaded: only [next_step]
    changes, the graph is at its end node, and no later answer is
    processed. *)
Theorem quit_ends_the_session (state : ChatState) (line : string)
        (later : list Reply) :
  conversation_history state <> [] ->
  startswith (lower line) "/q" = true ->
  graph_run NHandleUserInput state [UserLine line]
  = Some (NEnd, set_next_step state "END")
  /\ (later <> [] ->
      graph_run NHandleUserInput state (UserLine line :: later) = None).
Proof.
  intros Hne Hq. cbn [graph_run]. rewrite (step_quit state line Hne Hq).
  split; [ reflexivity | ].
  destruct later as [ | r rest ]; [ intros Hlater; now contradiction Hlater | ].
  intros _. reflexivity.
Qed.

Lemma split_ws_gives_tokens (s : string) : Forall is_token (split_ws s).
Proof.
  induction s as [ | c r IH ]; cbn [split_ws]; [ constructor | ].
  destruct (is_space c) eqn:Hc; [ exact IH | ].
  assert (Hone : is_token (String c ""))
    by (split; [ discriminate | cbn; now rewrite Hc ]).
  destruct r as [ | d r' ]; [ constructor; [ exact Hone | constructor ] | ].
  destruct (is_space d) eqn:Hd; [ constructor; [ exact Hone | exact IH ] | ].
  destruct (split_ws (String d r')) as [ | w ws ];
    [ constructor; [ exact Hone | constructor ] | ].
  inversion IH as [ | w0 ws0 [Hw Hchars] Hws ]; subst.
  constructor; [ | exact Hws ].
  split; [ discriminate | cbn [all_chars]; now rewrite Hc, Hchars ].
Qed.

Lemma step_load_command (state : ChatState) (line : string)
      (marker path description : string) :
  conversation_history state <> [] ->
  startswith (lower line) "/load" = true ->
  split_ws line = [marker; path; description] ->
  graph_step NHandleUserInput state (UserLine line)
  = Some (NLoadData,
          mkChatState (conversation_history state) (sql_event state)
            (mkDataLoadEvent (Some path) (Some description))
            (table_schemas state) "load_data").
Proof.
  intros Hne Hload Htokens. unfold graph_step.
  rewrite (branch_run_handler _ _ _ _
             (intake_load state line marker path description Hne
                (load_command_is_no_quit _ Hload) Hload Htokens)).
  reflexivity.
Qed.

(** X6: a load command of exactly three tokens records the second and the
    third as the two paths and routes to the load stage; history, attempt
    and schemas stay as they are.  Both paths are non-empty and hold no
    white space, so a path with a blank in it cannot be given. *)
Theorem load_command_records_its_tokens (state : ChatState) (line : string)
        (marker path description : string) :
  conversation_history state <> [] ->
  startswith (lower line) "/load" = true ->
  split_ws line = [marker; path; description] ->
  graph_step NHandleUserInput state (UserLine line)
  = Some (NLoadData,
          mkChatState (conversation_history state) (sql_event state)
            (mkDataLoadEvent (Some path) (Some description))
            (table_schemas state) "load_data")
  /\ is_token path /\ is_token description.
Proof.
  intros Hne Hload Htokens. split.
  - now apply step_load_command with (marker := marker).
  - pose proof (split_ws_gives_tokens line) as Hall. rewrite Htokens in Hall.
    inversion Hall as [ | w1 ws1 _ Hrest ]; subst.
    inversion Hrest as [ | w2 ws2 Hpath Hrest' ]; subst.
    inversion Hrest' as [ | w3 ws3 Hdescription _ ]; subst.
    now split.
Qed.

(** X7: a well-formed load command followed by a successful load brings
    the session back to intake with one more block at the end of the
    schemas and one more system message, which shows the table name and
    that block; the attempt record is untouched and the load event stays
    recorded. *)
Theorem load_command_then_load (state : ChatState) (line meta : string)
        (marker path description : string) :
  conversation_history state <> [] ->
  startswith (lower line) "/load" = true ->
  split_ws line = [marker; path; description] ->
  exists state',
    graph_run NHandleUserInput state [UserLine line; FileText meta]
    = Some (NHandleUserInput, state')
    /\ table_schemas state'
       = table_schemas state
         ++ "Table: " ++ table_name_of path ++ newline ++ meta ++ newline
    /\ conversation_history state'
       = (conversation_history state
          ++ [mkMessage SystemMessage
                ("Table '" ++ table_name_of path ++ "' loaded with metadata:"
                 ++ newline
                 ++ "Table: " ++ table_name_of path ++ newline ++ meta ++ newline)])%list
    /\ sql_event state' = sql_event state
    /\ data_load_event state' = mkDataLoadEvent (Some path) (Some description)
    /\ next_step state' = "handle_user_input".
Proof.
  intros Hne Hload Htokens. cbn [graph_run].
  rewrite (step_load_command state line marker path description Hne Hload Htokens).
  eexists. split; [ reflexivity | ].
  repeat split.
Qed.

(** ** Table names *)

Lemma length_append (a b : string) :
  String.length (a ++ b) = String.length a + String.length b.
Proof. induction a as [ | c a IH ]; cbn; [ reflexivity | now rewrite IH ]. Qed.

Lemma substring_whole (b : string) : String.substring 0 (String.length b) b = b.
Proof. induction b as [ | c b IH ]; cbn; [ reflexivity | now rewrite IH ]. Qed.

Lemma substring_first (a b : string) :
  String.substring 0 (String.length a) (a ++ b) = a.
Proof.
  induction a as [ | c a IH ]; cbn; [ now destruct b | now rewrite IH ].
Qed.

Lemma substring_skip (a b : string) (m : nat) :
  String.substring (String.length a) m (a ++ b) = String.substring 0 m b.
Proof. induction a as [ | c a IH ]; cbn; [ reflexivity | exact IH ]. Qed.

Lemma slice_from_append (a b : string) : slice_from (String.length a) (a ++ b) = b.
Proof.
  unfold slice_from. rewrite substring_skip, length_append.
  replace (String.length a + String.length b - String.length a)
    with (String.length b) by lia.
  apply substring_whole.
Qed.

Lemma lacks_char_append (c : ascii) (a b : string) :
  lacks_char c (a ++ b) = lacks_char c a && lacks_char c b.
Proof.
  unfold lacks_char. induction a as [ | d a IH ]; cbn; [ reflexivity | ].
  now rewrite IH, andb_assoc.
Qed.

Lemma rfind_from_absent (c : ascii) (s : string) :
  forall i : Z, lacks_char c s = true -> rfind_from c s i = (-1)%Z.
Proof.
  unfold lacks_char.
  induction s as [ | d r IH ]; intros i Hlacks; cbn in *; [ reflexivity | ].
  apply andb_true_iff in Hlacks as [Hd Hr].
  rewrite (IH (i + 1)%Z Hr). cbn.
  apply negb_true_iff in Hd. now rewrite Hd.
Qed.

Lemma rfind_from_last (c : ascii) (s t : string) :
  forall i : Z,
    (0 <= i)%Z ->
    lacks_char c t = true ->
    rfind_from c (s ++ String c t) i = (i + Z.of_nat (String.length s))%Z.
Proof.
  induction s as [ | d s IH ]; intros i Hi Hlacks.
  - cbn [append rfind_from String.length].
    rewrite (rfind_from_absent c t (i + 1)%Z Hlacks). cbn.
    rewrite Ascii.eqb_refl. lia.
  - cbn [append rfind_from String.length].
    rewrite (IH (i + 1)%Z) by (lia || assumption).
    replace (0 <=? i + 1 + Z.of_nat (String.length s))%Z with true
      by (symmetry; apply Z.leb_le; lia).
    lia.
Qed.

Lemma basename_after_slash (dir name : string) :
  lacks_char "/" name = true ->
  basename (dir ++ "/" ++ name) = name.
Proof.
  intros Hname. unfold basename, rfind.
  change (dir ++ "/" ++ name) with (dir ++ String "/" name) at 1.
  rewrite (rfind_from_last "/" dir name 0%Z) by (lia || assumption).
  replace (Z.to_nat (0 + Z.of_nat (String.length dir) + 1))
    with (String.length (dir ++ "/"))
    by (rewrite length_append; cbn; lia).
  rewrite <- (append_assoc dir "/" name).
  apply slice_from_append.
Qed.

Lemma basename_without_slash (name : string) :
  lacks_char "/" name = true -> basename name = name.
Proof.
  intros Hname. unfold basename, rfind.
  rewrite (rfind_from_absent "/" name 0%Z Hname). cbn [Z.add Z.to_nat Z.opp].
  apply (slice_from_append "" name).
Qed.

Lemma splitext_root_of_stem (stem ext : string) :
  lacks_char "/" stem = true ->
  lacks_char "/" ext = true ->
  lacks_char "." ext = true ->
  all_chars (fun c => Ascii.eqb c ".") stem = false ->
  splitext_root (stem ++ "." ++ ext) = stem.
Proof.
  intros Hstem Hext Hdot Hlead. unfold splitext_root, rfind.
  rewrite (rfind_from_absent "/" (stem ++ "." ++ ext) 0%Z)
    by (rewrite lacks_char_append, Hstem; cbn; exact Hext).
  change (stem ++ "." ++ ext) with (stem ++ String "." ext).
  rewrite (rfind_from_last "." stem ext 0%Z) by (lia || assumption).
  replace (-1 <? 0 + Z.of_nat (String.length stem))%Z with true
    by (symmetry; apply Z.ltb_lt; lia).
  replace (Z.to_nat (-1 + 1)) with 0 by reflexivity.
  replace (Z.to_nat (0 + Z.of_nat (String.length stem) - -1 - 1))
    with (String.length stem) by lia.
  rewrite substring_first, Hlead. unfold slice_to.
  replace (Z.to_nat (0 + Z.of_nat (String.length stem)))
    with (String.length stem) by lia.
  apply substring_first.
Qed.

Lemma splitext_root_without_dot (name : string) :
  lacks_char "/" name = true ->
  lacks_char "." name = true ->
  splitext_root name = name.
Proof.
  intros Hslash Hdot. unfold splitext_root, rfind.
  now rewrite (rfind_from_absent "/" name 0%Z Hslash),
    (rfind_from_absent "." name 0%Z Hdot).
Qed.

(** X8: the table a load creates is named by the stem of the file.  For a
    file [stem.ext] in any directory, where the stem holds no slash and is
    not made of dots only and the extension holds no slash and no dot, the
    table name is [stem], with or without a directory in front; a file
    name with no dot at all is the table name as it is. *)
Theorem table_name_is_the_file_stem (dir stem ext : string) :
  lacks_char "/" stem = true ->
  lacks_char "/" ext = true ->
  lacks_char "." ext = true ->
  all_chars (fun c => Ascii.eqb c ".") stem = false ->
  table_name_of (dir ++ "/" ++ stem ++ "." ++ ext) = stem
  /\ table_name_of (stem ++ "." ++ ext) = stem
  /\ (forall meta,
        table_info_of (dir ++ "/" ++ stem ++ "." ++ ext) meta
        = "Table: " ++ stem ++ newline ++ meta ++ newline)
  /\ (forall name,
        lacks_char "/" name = true ->
        lacks_char "." name = true ->
        table_name_of (dir ++ "/" ++ name) = name).
Proof.
  intros Hstem Hext Hdot Hlead.
  assert (Hname : lacks_char "/" (stem ++ "." ++ ext) = true)
    by (rewrite lacks_char_append, Hstem; cbn; exact Hext).
  assert (Hfirst : table_name_of (dir ++ "/" ++ stem ++ "." ++ ext) = stem).
  { unfold table_name_of. rewrite (basename_after_slash dir _ Hname).
    now apply splitext_root_of_stem. }
  split; [ exact Hfirst | split; [ | split ] ].
  - unfold table_name_of. rewrite (basename_without_slash _ Hname).
    now apply splitext_root_of_stem.
  - intros meta. unfold table_info_of. now rewrite Hfirst.
  - intros name Hslash Hnodot. unfold table_name_of.
    rewrite (basename_after_slash dir name Hslash).
    now apply splitext_root_without_dot.
Qed.

(** ** The prompt of query building *)

Lemma contains_self (p : string) : contains p p = true.
Proof.
  assert (Hprefix : String.prefix p p = true)
    by (apply prefix_iff; exists ""; now rewrite append_empty_r).
  destruct p; cbn [contains]; now rewrite Hprefix.
Qed.

Lemma contains_prepend (a s p : string) :
  contains s p = true -> contains (a ++ s) p = true.
Proof.
  intros Hin. induction a as [ | c a IH ]; cbn [append contains]; [ exact Hin | ].
  rewrite IH. apply orb_true_r.
Qed.

Lemma contains_block (blocks : list string) (b : string) :
  In b blocks -> contains (concat_blocks blocks) b = true.
Proof.
  induction blocks as [ | x rest IH ]; cbn [In concat_blocks]; [ contradiction | ].
  intros [ -> | Hin ].
  - apply contains_append, contains_self.
  - apply contains_prepend, IH, Hin.
Qed.

Lemma system_instruction_names_marker :
  contains system_instruction clarification_marker = true.
Proof.
  unfold system_instruction.
  do 18 apply contains_prepend.
  apply contains_append, contains_self.
Qed.

(** X9: the list sent to the model for a query is one system message
    followed by the whole history, in order.  That system message names
    the clarification marker the handler looks for and, at any point of a
    session, holds the block of every load made so far. *)
Theorem prompt_holds_every_loaded_block (replies : list Reply) (n : Node)
        (state : ChatState) :
  graph_run NHandleUserInput chat_state replies = Some (n, state) ->
  (exists head,
      get_conversation_history state = head :: conversation_history state
      /\ role head = SystemMessage
      /\ contains (content head) clarification_marker = true
      /\ forall load,
          In load (loads_of None replies) ->
          contains (content head) (block_of load) = true).
Proof.
  intros Hrun. exists (system_message state).
  split; [ reflexivity | split; [ reflexivity | split ] ].
  - cbn [system_message content].
    apply contains_append, system_instruction_names_marker.
  - intros load Hload. cbn [system_message content].
    apply contains_prepend.
    rewrite (schemas_along_run replies NHandleUserInput chat_state None n state)
      by (exact Hrun || (intros Hnode; discriminate Hnode)).
    cbn [chat_state table_schemas append].
    apply contains_block, in_map, Hload.
Qed.

(** ** The load event *)

Lemma parse_load_malformed (line : string) :
  length (split_ws line) <> 3 -> parse_load line = None.
Proof.
  intros Hlen. unfold parse_load.
  destruct (startswith (lower line) "/q"); [ reflexivity | ].
  destruct (startswith (lower line) "/load"); [ | reflexivity ].
  destruct (split_ws line) as [ | a [ | b [ | c [ | d rest ] ] ] ]; try reflexivity.
  now contradiction Hlen.
Qed.

(** X10: the load event of the state is the one asked for by the last
    well-formed load command typed so far; no other line and no handler
    changes or clears it, a completed load included. *)
Theorem load_event_is_the_last_command (replies : list Reply) :
  forall (n : Node) (state : ChatState) (n' : Node) (state' : ChatState),
    graph_run n state replies = Some (n', state') ->
    data_load_event state' = last_load_event (data_load_event state) replies.
Proof.
  induction replies as [ | r rest IH ]; intros n state n' state' Hrun.
  - cbn in Hrun. now injection Hrun as <- <-.
  - cbn [graph_run] in Hrun.
    destruct (graph_step n state r) as [ [n1 st1] | ] eqn:Hstep; [ | discriminate ].
    rewrite (IH n1 st1 n' state' Hrun). clear IH Hrun.
    step_cases Hstep; cbn [last_load_event]; state_fields; try reflexivity.
    + unfold parse_load.
      match goal with Hq : startswith _ "/q" = true |- _ => now rewrite Hq end.
    + unfold parse_load.
      match goal with
      | Hq : startswith _ "/q" = false, Hl : startswith _ "/load" = true,
        Ht : split_ws _ = _ |- _ => now rewrite Hq, Hl, Ht
      end.
    + match goal with
      | Hlen : length (split_ws _) <> 3 |- _ =>
          now rewrite (parse_load_malformed _ Hlen)
      end.
    + unfold parse_load.
      match goal with
      | Hq : startswith _ "/q" = false, Hl : startswith _ "/load" = false |- _ =>
          now rewrite Hq, Hl
      end.
    + unfold parse_load.
      match goal with
      | Hq : startswith _ "/q" = false, Hl : startswith _ "/load" = false |- _ =>
          now rewrite Hq, Hl
      end.
Qed.

(** ** A whole turn *)

Lemma step_question (state : ChatState) (line : string) :
  conversation_history state <> [] ->
  startswith (lower line) "/q" = false ->
  startswith (lower line) "/load" = false ->
  table_schemas state <> "" ->
  graph_step NHandleUserInput state (UserLine line)
  = Some (NBuildQuery,
          mkChatState (conversation_history state ++ [mkMessage HumanMessage line])
            (new_sql_event line) (data_load_event state) (table_schemas state)
            "build_query").
Proof.
  intros Hne Hq Hload Hschemas. unfold graph_step.
  rewrite (branch_run_handler _ _ _ _
             (intake_question state line Hne Hq Hload Hschemas)).
  reflexivity.
Qed.

Lemma retried_run (tries : list (string * string)) (rows : Rows) (summary : string) :
  forall (state : ChatState) (question : string),
    user_question (sql_event state) = Some question ->
    (retry_count (sql_event state) + Z.of_nat (length tries)
     <= MAX_RETRY_SQL_GENERATION)%Z ->
    Forall answers_with_sql tries ->
    exists state',
      graph_run NExecuteQuery state (retried_replies tries rows summary)
      = Some (NHandleUserInput, state')
      /\ user_question (sql_event state') = user_question (sql_event state)
      /\ sql_result (sql_event state') = Some rows
      /\ error (sql_event state') = None
      /\ llm_response (sql_event state') = Some summary
      /\ (retry_count (sql_event state')
          = retry_count (sql_event state) + Z.of_nat (length tries))%Z
      /\ table_schemas state' = table_schemas state
      /\ length (conversation_history state')
         = length (conversation_history state) + 2 * length tries + 2
      /\ exists earlier,
          conversation_history state'
          = (earlier ++ [mkMessage AIMessage ("SQL results are: " ++ show_rows rows);
                         mkMessage AIMessage summary])%list.
Proof.
  induction tries as [ | [e text] rest IH ]; intros state question Hasked Hcount Hsql.
  - cbn [retried_replies graph_run].
    assert (Hpost : graph_step NPostExecution (execute_query state (inr rows))
                      (LlmText summary)
                    = option_map (fun st => (NHandleUserInput, st))
                        (post_execution (execute_query state (inr rows)) summary))
      by (unfold graph_step; cbn [run_handler];
          destruct (post_execution (execute_query state (inr rows)) summary);
          reflexivity).
    change (graph_step NExecuteQuery state (DbOutcome (inr rows)))
      with (Some (NPostExecution, execute_query state (inr rows))).
    cbn iota beta. rewrite Hpost.
    rewrite (post_execution_fields (execute_query state (inr rows)) summary question)
      by exact Hasked.
    cbn [option_map].
    eexists. split; [ reflexivity | ].
    unfold execute_query.
    state_fields. cbn [length Z.of_nat format_result].
    repeat split; try lia.
    + rewrite !length_app. cbn. lia.
    + exists (conversation_history state). now rewrite <- app_assoc.
  - inversion Hsql as [ | try tl Htext Hrest ]; subst.
    unfold answers_with_sql in Htext; cbn [snd] in Htext.
    cbn [length] in Hcount. rewrite Nat2Z.inj_succ in Hcount.
    cbn [retried_replies graph_run].
    rewrite (step_execute_retry state e) by lia.
    rewrite (step_build_sql (execute_query state (inl e)) text Htext).
    destruct (IH (build_query (execute_query state (inl e)) text) question)
      as (state' & Hrun & Hquestion & Hrows & Herror & Hsummary & Hretry
          & Hschemas & Hlength & Hlast).
    + rewrite (build_query_sql_fields _ text Htext). cbn [sql_event user_question].
      rewrite execute_query_failure_event. exact Hasked.
    + rewrite (build_query_sql_fields _ text Htext). cbn [sql_event retry_count].
      rewrite execute_query_failure_event. cbn [retry_count]. lia.
    + exact Hrest.
    + exists state'. split; [ exact Hrun | ].
      rewrite (build_query_sql_fields _ text Htext) in Hquestion, Hretry, Hschemas, Hlength.
      cbn [sql_event user_question retry_count table_schemas conversation_history]
        in Hquestion, Hretry, Hschemas, Hlength.
      rewrite execute_query_failure_event in Hquestion, Hretry.
      cbn [user_question retry_count] in Hquestion, Hretry.
      rewrite execute_query_keeps_schemas in Hschemas.
      rewrite length_app in Hlength.
      rewrite (proj1 (execute_query_retries state e ltac:(lia))) in Hlength.
      rewrite length_app in Hlength. cbn [length] in Hlength |- *.
      repeat split; try assumption; lia.
Qed.

(** X11: a whole turn.  A question typed once data is loaded, answered by
    the model with a query, then [k] failed executions each repaired by a
    new query, [k] at most the bound, then a successful execution and the
    summary: the session is back at intake, the attempt holds the
    question, the rows, the summary, no error and a retry count of [k],
    the schemas are as before, and the history has grown by 2k + 4
    messages ending with the raw rows and the summary. *)
Theorem question_is_answered_after_retries
        (state : ChatState) (line first_query : string)
        (tries : list (string * string)) (rows : Rows) (summary : string) :
  conversation_history state <> [] ->
  startswith (lower line) "/q" = false ->
  startswith (lower line) "/load" = false ->
  table_schemas state <> "" ->
  startswith first_query clarification_marker = false ->
  Forall answers_with_sql tries ->
  (Z.of_nat (length tries) <= MAX_RETRY_SQL_GENERATION)%Z ->
  exists state',
    graph_run NHandleUserInput state
      (UserLine line :: LlmText first_query :: retried_replies tries rows summary)
    = Some (NHandleUserInput, state')
    /\ user_question (sql_event state') = Some line
    /\ sql_result (sql_event state') = Some rows
    /\ error (sql_event state') = None
    /\ llm_response (sql_event state') = Some summary
    /\ retry_count (sql_event state') = Z.of_nat (length tries)
    /\ table_schemas state' = table_schemas state
    /\ length (conversation_history state')
       = length (conversation_history state) + 2 * length tries + 4
    /\ exists earlier,
        conversation_history state'
        = (earlier ++ [mkMessage AIMessage ("SQL results are: " ++ show_rows rows);
                       mkMessage AIMessage summary])%list.
Proof.
  intros Hne Hq Hload Hschemas Hfirst Hsql Hcount.
  cbn [graph_run].
  rewrite (step_question state line Hne Hq Hload Hschemas).
  rewrite (step_build_sql _ first_query Hfirst).
  rewrite (build_query_sql_fields _ first_query Hfirst). cbn zeta.
  state_fields.
  match goal with
  | |- exists state', graph_run NExecuteQuery ?st _ = _ /\ _ =>
      destruct (retried_run tries rows summary st line)
        as (state' & Hrun & Hquestion & Hrows & Herror & Hsummary & Hretry
            & Hsame & Hlength & Hlast);
      [ reflexivity | cbn [sql_event retry_count]; lia | exact Hsql | ]
  end.
  exists state'. split; [ exact Hrun | ].
  cbn [sql_event user_question retry_count table_schemas conversation_history]
    in Hquestion, Hretry, Hsame, Hlength.
  rewrite !length_app in Hlength. cbn [length] in Hlength.
  repeat split; try assumption; lia.
Qed.

(** ** The colours of the log *)

(** X12: the formatter puts a colour code in front of the message and the
    reset code behind it and leaves the text of the message as it is.  The
    code is one of the four of the table; a level name that is not a key
    of the table, like the levels INFO and CRITICAL, gets the reset code
    as its colour. *)
Theorem colored_msg_keeps_the_text (levelname msg : string) :
  exists color,
    colored_msg levelname msg = color ++ msg ++ RESET
    /\ In color [escape ++ "[34m"; escape ++ "[0m"; escape ++ "[93m"; escape ++ "[91m"]
    /\ String.substring (String.length color) (String.length msg)
         (colored_msg levelname msg)
       = msg
    /\ (~ In levelname (map fst COLORS) -> color = RESET)
    /\ (levelname = "INFO" \/ levelname = "CRITICAL" -> color = RESET).
Proof.
  exists (dict_get levelname COLORS RESET).
  split; [ reflexivity | ].
  assert (Hcases :
            dict_get levelname COLORS RESET = escape ++ "[34m" /\ levelname = "DEBUG"
            \/ dict_get levelname COLORS RESET = escape ++ "[0m" /\ levelname = "INFO"
            \/ dict_get levelname COLORS RESET = escape ++ "[93m" /\ levelname = "WARNING"
            \/ dict_get levelname COLORS RESET = escape ++ "[91m" /\ levelname = "ERROR"
            \/ dict_get levelname COLORS RESET = escape ++ "[0m" /\ levelname = "CRITICAL"
            \/ dict_get levelname COLORS RESET = RESET
               /\ ~ In levelname (map fst COLORS)).
  { cbn [dict_get COLORS map fst In].
    destruct (String.eqb_spec levelname "DEBUG") as [ -> | H1 ]; [ now left | ].
    destruct (String.eqb_spec levelname "INFO") as [ -> | H2 ]; [ now right; left | ].
    destruct (String.eqb_spec levelname "WARNING") as [ -> | H3 ];
      [ now right; right; left | ].
    destruct (String.eqb_spec levelname "ERROR") as [ -> | H4 ];
      [ now right; right; right; left | ].
    destruct (String.eqb_spec levelname "CRITICAL") as [ -> | H5 ];
      [ now right; right; right; right; left | ].
    do 5 right. split; [ reflexivity | ].
    intros [E | [E | [E | [E | [E | []]]]]]; congruence. }
  split; [ | split; [ | split ] ].
  - cbn [In].
    destruct Hcases as [[-> _] | [[-> _] | [[-> _] | [[-> _] | [[-> _] | [-> _]]]]]];
      tauto.
  - unfold colored_msg. rewrite substring_skip. apply substring_first.
  - intros Hmissing.
    destruct Hcases
      as [[_ ->] | [[_ ->] | [[_ ->] | [[_ ->] | [[_ ->] | [Hreset _]]]]]];
      try exact Hreset; try reflexivity;
      exfalso; apply Hmissing; cbn; tauto.
  - intros [-> | ->]; reflexivity.
Qed.

End Session.

(** ** Scenarios

    The statements above at concrete inputs.  The rows of the engine play
    no part in them: they are taken in [unit]. *)

(** Bound 1: the first failure asks for a new query, the second gives up. *)
Lemma two_failures_with_bound_one :
  let show := fun _ : unit => "[()]" in
  let tries := [("no such table: sale", "SELECT sum(amount) FROM sales")] in
  (0 <= 1)%Z
  /\ retry_count (sql_event (@loaded_state unit)) = 0%Z
  /\ length tries = Z.to_nat 1
  /\ Forall answers_with_sql tries
  /\ nodes_entered show 1 NExecuteQuery loaded_state
       (failing_replies tries "no such column: amount")
     = [NBuildQuery; NExecuteQuery; NHandleUserInput]
  /\ count_node NExecuteQuery
       (NExecuteQuery :: nodes_entered show 1 NExecuteQuery loaded_state
                           (failing_replies tries "no such column: amount"))
     = 2.
Proof.
  cbv zeta.
  assert (Hbound : (0 <= 1)%Z) by lia.
  assert (Hsql : Forall answers_with_sql
                   [("no such table: sale", "SELECT sum(amount) FROM sales")])
    by (repeat constructor).
  destruct (execute_query_attempts_before_give_up (fun _ : unit => "[()]") 1
              loaded_state
              [("no such table: sale", "SELECT sum(amount) FROM sales")]
              "no such column: amount" Hbound eq_refl eq_refl Hsql)
    as (_ & _ & Hpath & Hcount & _).
  split; [ exact Hbound | ].
  split; [ reflexivity | ].
  split; [ reflexivity | ].
  split; [ exact Hsql | ].
  split; [ exact Hpath | exact Hcount ].
Defined.

(** Bound 0: one attempt, then the give-up. *)
Example one_attempt_with_bound_zero :
  nodes_entered (fun _ : unit => "[()]") 0 NExecuteQuery loaded_state
    (failing_replies [] "syntax error")
  = [NHandleUserInput].
Proof. reflexivity. Qed.

(** A question asked once a table is loaded. *)
Lemma accepted_question_starts_fresh_attempt :
  let show := fun _ : unit => "[()]" in
  conversation_history (@loaded_state unit) <> []
  /\ startswith (lower "total sales last month") "/q" = false
  /\ startswith (lower "total sales last month") "/load" = false
  /\ table_schemas (@loaded_state unit) <> ""
  /\ exists state',
      handle_user_input (@loaded_state unit) "total sales last month" = Some state'
      /\ user_question (sql_event state') = Some "total sales last month"
      /\ retry_count (sql_event state') = 0%Z.
Proof.
  cbv zeta.
  assert (Hhist : conversation_history (@loaded_state unit) <> []) by discriminate.
  assert (Hschemas : table_schemas (@loaded_state unit) <> "") by discriminate.
  destruct (retry_count_starts_at_zero_and_only_grows (fun _ : unit => "[()]") 0
              loaded_state "total sales last month" Hhist eq_refl eq_refl Hschemas)
    as [(state' & Hrun & _ & Hquestion & Hcount & _) _].
  split; [ exact Hhist | ].
  split; [ reflexivity | ].
  split; [ reflexivity | ].
  split; [ exact Hschemas | ].
  exists state'. split; [ exact Hrun | ]. split; [ exact Hquestion | exact Hcount ].
Defined.

(** The clarification of the specification's scenario. *)
Example clarification_scenario :
  let state' := build_query (@loaded_state unit) "[CLARIFICATION] Which date range?" in
  conversation_history state'
  = (conversation_history (@loaded_state unit)
     ++ [mkMessage AIMessage
           "Your question is ambiguous. Please provide additional details: Which date range?"])%list
  /\ next_step state' = "handle_user_input"
  /\ sql_text (sql_event state') = None.
Proof. repeat split. Qed.

Example fenced_query_scenario :
  let state' :=
    build_query (@loaded_state unit)
      ("```sql" ++ newline ++ "SELECT sum(amount) FROM sales" ++ newline ++ "```") in
  sql_text (sql_event state') = Some "SELECT sum(amount) FROM sales"
  /\ next_step state' = "execute_query".
Proof. repeat split. Qed.

(** Only the text up to a second marker is kept as the clarification. *)
Example clarification_stops_at_second_marker :
  nth 1 (split_on clarification_marker
           "[CLARIFICATION] a or b?[CLARIFICATION] c?") ""
  = " a or b?".
Proof. reflexivity. Qed.

(** The load of the specification's scenario. *)
Lemma load_sales_scenario :
  let show := fun _ : unit => "[()]" in
  let replies := [UserLine "/load sales.csv sales_meta.txt";
                  FileText "columns: id, amount, date"] in
  exists state,
    graph_run show 0 NHandleUserInput chat_state replies
    = Some (NHandleUserInput, state)
    /\ table_schemas state
       = "Table: sales" ++ newline ++ "columns: id, amount, date" ++ newline
    /\ next_step state = "handle_user_input".
Proof.
  cbv zeta. eexists. split; [ reflexivity | ].
  split; [ | reflexivity ].
  match goal with
  | |- table_schemas ?st = _ =>
      destruct (schemas_are_the_loaded_blocks (fun _ : unit => "[()]") 0
                  [UserLine "/load sales.csv sales_meta.txt";
                   FileText "columns: id, amount, date"]
                  NHandleUserInput st eq_refl) as [Hschemas _]
  end.
  rewrite Hschemas. reflexivity.
Defined.

(** Two loads of the same file leave two blocks. *)
Example reload_adds_a_second_block :
  option_map (fun c => table_schemas (snd c))
    (graph_run (fun _ : unit => "[()]") 0 NHandleUserInput chat_state
       [UserLine "/load sales.csv meta.txt"; FileText "v1";
        UserLine "/load sales.csv meta.txt"; FileText "v2"])
  = Some ("Table: sales" ++ newline ++ "v1" ++ newline
          ++ "Table: sales" ++ newline ++ "v2" ++ newline).
Proof. reflexivity. Qed.

(** A load command with one argument only. *)
Lemma load_with_one_argument_retries_intake :
  conversation_history (@chat_state unit) <> []
  /\ startswith (lower "/load sales.csv") "/load" = true
  /\ length (split_ws "/load sales.csv") <> 3
  /\ exists state',
      handle_user_input (@chat_state unit) "/load sales.csv" = Some state'
      /\ next_step state' = "handle_user_input"
      /\ conversation_history state' = conversation_history (@chat_state unit)
      /\ sql_event state' = sql_event (@chat_state unit).
Proof.
  assert (Hhist : conversation_history (@chat_state unit) <> []) by discriminate.
  assert (Htokens : length (split_ws "/load sales.csv") <> 3) by discriminate.
  destruct (malformed_load_returns_to_intake (fun _ : unit => "[()]") 0
              chat_state "/load sales.csv" Hhist eq_refl Htokens)
    as (state' & Hrun & Hnext & Hsame & Hevent & _).
  split; [ exact Hhist | ].
  split; [ reflexivity | ].
  split; [ exact Htokens | ].
  exists state'. split; [ exact Hrun | ].
  split; [ exact Hnext | ]. split; [ exact Hsame | exact Hevent ].
Defined.

(** C5, counterexample: the malformed command adds no system message to
    the history. *)
Lemma malformed_load_adds_no_system_message :
  ~ (exists state' m,
        handle_user_input (@chat_state unit) "/load sales.csv" = Some state'
        /\ role m = SystemMessage
        /\ conversation_history state'
           = (conversation_history (@chat_state unit) ++ [m])%list).
Proof.
  intros (state' & m & Hrun & _ & Hhist).
  cbv in Hrun. injection Hrun as <-.
  cbn in Hhist. discriminate Hhist.
Qed.

(** The question of the specification's scenario, asked before any load. *)
Lemma question_with_no_table_scenario :
  conversation_history (@chat_state unit) <> []
  /\ startswith (lower "total sales last month") "/q" = false
  /\ startswith (lower "total sales last month") "/load" = false
  /\ table_schemas (@chat_state unit) = ""
  /\ exists state',
      handle_user_input (@chat_state unit) "total sales last month" = Some state'
      /\ conversation_history state'
         = (conversation_history (@chat_state unit)
            ++ [mkMessage SystemMessage load_first_text])%list
      /\ next_step state' = "handle_user_input"
      /\ sql_event state' = sql_event (@chat_state unit).
Proof.
  assert (Hhist : conversation_history (@chat_state unit) <> []) by discriminate.
  destruct (question_before_load_is_refused (fun _ : unit => "[()]") 0
              chat_state "total sales last month" Hhist eq_refl eq_refl eq_refl)
    as [(state' & Hrun & Hadded & Hnext & Hevent & _) _].
  split; [ exact Hhist | ].
  split; [ reflexivity | ].
  split; [ reflexivity | ].
  split; [ reflexivity | ].
  exists state'. split; [ exact Hrun | ].
  split; [ exact Hadded | ]. split; [ exact Hnext | exact Hevent ].
Defined.

(** Bound 3, fourth failure: the message names the constant, not 3. *)
Lemma give_up_message_with_bound_three :
  let state :=
    set_sql_event (@loaded_state unit)
      (mkSqlEvent (Some "total sales last month") (Some "SELECT sum(amount) FROM sale")
                  None None (Some "no such table: sale") 3) in
  (3 < retry_count (sql_event state) + 1)%Z
  /\ conversation_history (execute_query 3 state (inl "no such table: sale"))
     = (conversation_history state
        ++ [mkMessage AIMessage
              "Unfortunately, I was unable to execute your requests after {MAX_RETRY_SQL_GENERATION} attempts."])%list
  /\ contains give_up_text "3" = false.
Proof.
  cbv zeta.
  assert (Hgt : (3 < retry_count
                       (sql_event
                          (set_sql_event (@loaded_state unit)
                             (mkSqlEvent (Some "total sales last month")
                                (Some "SELECT sum(amount) FROM sale")
                                None None (Some "no such table: sale") 3))) + 1)%Z)
    by (cbn; lia).
  destruct (give_up_message_has_no_bound 3 _ "no such table: sale" Hgt)
    as (Hmessage & _ & _).
  split; [ exact Hgt | ].
  split; [ exact Hmessage | reflexivity ].
Defined.

(** Narration at the end of a real turn: a load, a question, the model's
    query and the rows of the engine. *)
Lemma narration_appends_rows_then_summary :
  let show := fun _ : unit => "[(42,)]" in
  let replies := [UserLine "/load sales.csv sales_meta.txt";
                  FileText "columns: id, amount, date";
                  UserLine "total sales";
                  LlmText "SELECT sum(amount) FROM sales";
                  DbOutcome (inr tt)] in
  exists state state' added,
    graph_run show 0 NHandleUserInput chat_state replies
    = Some (NPostExecution, state)
    /\ user_question (sql_event state) = Some "total sales"
    /\ run_handler show 0 NPostExecution state (LlmText "Total sales were 42.")
       = Some state'
    /\ conversation_history state' = (conversation_history state ++ added)%list
    /\ added = [mkMessage AIMessage "SQL results are: [(42,)]";
                mkMessage AIMessage "Total sales were 42."].
Proof.
  cbv zeta.
  set (show := fun _ : unit => "[(42,)]").
  set (replies := [UserLine "/load sales.csv sales_meta.txt";
                   FileText "columns: id, amount, date";
                   UserLine "total sales";
                   LlmText "SELECT sum(amount) FROM sales";
                   DbOutcome (inr tt)]).
  set (state := state_after show 0 NHandleUserInput chat_state replies).
  set (state' := state_after show 0 NPostExecution state
                   [LlmText "Total sales were 42."]).
  assert (Hrun : graph_run show 0 NHandleUserInput chat_state replies
                 = Some (NPostExecution, state))
    by (vm_compute; reflexivity).
  assert (Hhandler : run_handler show 0 NPostExecution state
                       (LlmText "Total sales were 42.")
                     = Some state')
    by (vm_compute; reflexivity).
  destruct (history_grows_by_handler show 0 NPostExecution state
              (LlmText "Total sales were 42.") state' Hhandler)
    as (added & Hhist & _ & Htwo).
  destruct (Htwo eq_refl) as (text & Htext & Hadded).
  injection Htext as <-.
  exists state, state', added.
  split; [ exact Hrun | ].
  split; [ vm_compute; reflexivity | ].
  split; [ exact Hhandler | ].
  split; [ exact Hhist | ].
  rewrite Hadded. vm_compute. reflexivity.
Defined.

(** C8, counterexample: at the end of the same turn the narration handler
    returns, and the history it leaves is not the one it found with a
    single message added. *)
Lemma narration_adds_more_than_one_message :
  let show := fun _ : unit => "[(42,)]" in
  let replies := [UserLine "/load sales.csv sales_meta.txt";
                  FileText "columns: id, amount, date";
                  UserLine "total sales";
                  LlmText "SELECT sum(amount) FROM sales";
                  DbOutcome (inr tt)] in
  let state := state_after show 0 NHandleUserInput chat_state replies in
  graph_run show 0 NHandleUserInput chat_state replies
  = Some (NPostExecution, state)
  /\ user_question (sql_event state) = Some "total sales"
  /\ exists state',
      post_execution show state "Total sales were 42." = Some state'
      /\ length (conversation_history state')
         = length (conversation_history state) + 2
      /\ ~ (exists m,
              conversation_history state'
              = (conversation_history state ++ [m])%list).
Proof.
  cbv zeta.
  set (show := fun _ : unit => "[(42,)]").
  set (replies := [UserLine "/load sales.csv sales_meta.txt";
                   FileText "columns: id, amount, date";
                   UserLine "total sales";
                   LlmText "SELECT sum(amount) FROM sales";
                   DbOutcome (inr tt)]).
  set (state := state_after show 0 NHandleUserInput chat_state replies).
  split; [ vm_compute; reflexivity | ].
  split; [ vm_compute; reflexivity | ].
  exists (state_after show 0 NPostExecution state [LlmText "Total sales were 42."]).
  split; [ vm_compute; reflexivity | ].
  assert (Hlength :
            length (conversation_history
                      (state_after show 0 NPostExecution state
                         [LlmText "Total sales were 42."]))
            = length (conversation_history state) + 2)
    by (vm_compute; reflexivity).
  split; [ exact Hlength | ].
  intros (m & Hhist).
  rewrite Hhist, length_app in Hlength. cbn [length] in Hlength. lia.
Qed.

(** Quitting. *)
Lemma quit_leaves_a_known_stage :
  let show := fun _ : unit => "[()]" in
  exists state',
    run_handler show 0 NHandleUserInput chat_state (UserLine "/q") = Some state'
    /\ next_step state' = "END"
    /\ In (next_step state') stage_names
    /\ successor NHandleUserInput state' = Some NEnd.
Proof.
  cbv zeta. eexists. split; [ reflexivity | ].
  split; [ reflexivity | ].
  split; [ | reflexivity ].
  match goal with
  | |- In (next_step ?st) _ =>
      destruct (next_step_is_a_known_stage (fun _ : unit => "[()]") 0
                  NHandleUserInput chat_state (UserLine "/q") st eq_refl)
        as (Hin & _ & _)
  end.
  exact Hin.
Defined.

(** Rows of an earlier success do not survive a failure. *)
Example failure_clears_earlier_rows :
  let state := execute_query 5 (@loaded_state unit) (inr tt) in
  sql_result (sql_event state) = Some tt
  /\ sql_result (sql_event (execute_query 5 state (inl "timeout"))) = None
  /\ error (sql_event (execute_query 5 state (inl "timeout"))) = Some "timeout".
Proof. repeat split. Qed.

(** ** The string operations on sample texts *)

Example split_ws_load :
  split_ws "/load  sales.csv sales_meta.txt " = ["/load"; "sales.csv"; "sales_meta.txt"].
Proof. reflexivity. Qed.

Example split_on_marker :
  split_on "[CLARIFICATION]" "[CLARIFICATION] Which date range?" = [""; " Which date range?"].
Proof. reflexivity. Qed.

Example remove_fences :
  strip (remove_all "```" (remove_all "```sql" ("```sql" ++ newline ++ "SELECT 1" ++ newline ++ "```")))
  = "SELECT 1".
Proof. reflexivity. Qed.

Example table_name_sales :
  splitext_root (basename "data/2024/sales.csv") = "sales".
Proof. reflexivity. Qed.

Example table_name_hidden :
  splitext_root (basename "data/.hidden") = ".hidden".
Proof. reflexivity. Qed.

Example lower_quit : startswith (lower "/Quit now") "/q" = true.
Proof. reflexivity. Qed.

(** ** More scenarios *)

(** A load, a question, a query and its rows: narration has its four
    messages. *)
Lemma narration_prompt_scenario :
  let show := fun _ : unit => "[(42,)]" in
  let replies := [UserLine "/load sales.csv sales_meta.txt";
                  FileText "columns: id, amount";
                  UserLine "total sales";
                  LlmText "SELECT sum(amount) FROM sales";
                  DbOutcome (inr tt)] in
  exists state,
    graph_run show 2 NHandleUserInput chat_state replies
    = Some (NPostExecution, state)
    /\ exists system,
        interpret_msgs show state
        = Some [system;
                mkMessage HumanMessage "total sales";
                mkMessage AIMessage "Generated SQL Text is: SELECT sum(amount) FROM sales";
                mkMessage AIMessage "SQL results are: [(42,)]"].
Proof.
  cbv zeta.
  set (show := fun _ : unit => "[(42,)]").
  set (replies := [UserLine "/load sales.csv sales_meta.txt";
                   FileText "columns: id, amount";
                   UserLine "total sales";
                   LlmText "SELECT sum(amount) FROM sales";
                   DbOutcome (inr tt)]).
  assert (Hrun : graph_run show 2 NHandleUserInput chat_state replies
                 = Some (NPostExecution,
                         state_after show 2 NHandleUserInput chat_state replies))
    by (vm_compute; reflexivity).
  exists (state_after show 2 NHandleUserInput chat_state replies).
  split; [ exact Hrun | ].
  destruct (stages_find_their_inputs show 2 replies NPostExecution _ Hrun)
    as [_ Hprompt].
  destruct (Hprompt eq_refl) as (question & query & rows & Hmsgs).
  eexists. vm_compute. reflexivity.
Defined.

(** After a load command the load stage accepts any description text. *)
Lemma load_stage_accepts_any_text :
  let show := fun _ : unit => "[()]" in
  exists state,
    graph_run show 0 NHandleUserInput chat_state
      [UserLine "/load sales.csv sales_meta.txt"]
    = Some (NLoadData, state)
    /\ forall meta, exists state',
        graph_step show 0 NLoadData state (FileText meta)
        = Some (NHandleUserInput, state').
Proof.
  cbv zeta.
  set (show := fun _ : unit => "[()]").
  set (replies := [@UserLine unit "/load sales.csv sales_meta.txt"]).
  assert (Hrun : graph_run show 0 NHandleUserInput chat_state replies
                 = Some (NLoadData,
                         state_after show 0 NHandleUserInput chat_state replies))
    by (vm_compute; reflexivity).
  exists (state_after show 0 NHandleUserInput chat_state replies).
  split; [ exact Hrun | ].
  exact (session_makes_progress show 0 replies NLoadData _ Hrun).
Defined.

(** Bound 1, two failures: the count is 2 and the session is at intake. *)
Lemma retry_count_after_two_failures :
  let show := fun _ : unit => "[()]" in
  let replies := [UserLine "/load sales.csv sales_meta.txt";
                  FileText "columns: id, amount";
                  UserLine "total sales";
                  LlmText "SELECT sum(amount) FROM sale";
                  DbOutcome (inl "no such table: sale");
                  LlmText "SELECT sum(amout) FROM sales";
                  DbOutcome (inl "no such column: amout")] in
  exists state,
    graph_run show 1 NHandleUserInput chat_state replies
    = Some (NHandleUserInput, state)
    /\ retry_count (sql_event state) = 2%Z
    /\ (0 <= retry_count (sql_event state) <= Z.max 1 0 + 1)%Z.
Proof.
  cbv zeta.
  set (show := fun _ : unit => "[()]").
  set (replies := [UserLine "/load sales.csv sales_meta.txt";
                   FileText "columns: id, amount";
                   UserLine "total sales";
                   LlmText "SELECT sum(amount) FROM sale";
                   DbOutcome (inl "no such table: sale");
                   LlmText "SELECT sum(amout) FROM sales";
                   DbOutcome (inl "no such column: amout")]).
  assert (Hrun : graph_run show 1 NHandleUserInput chat_state replies
                 = Some (NHandleUserInput,
                         state_after show 1 NHandleUserInput chat_state replies))
    by (vm_compute; reflexivity).
  exists (state_after show 1 NHandleUserInput chat_state replies).
  split; [ exact Hrun | ].
  split; [ vm_compute; reflexivity | ].
  exact (proj1 (retry_count_stays_within_bound show 1 replies NHandleUserInput _ Hrun)).
Defined.

(** A line that merely starts with the quit marker. *)
Lemma quarterly_question_quits :
  conversation_history (@loaded_state unit) <> []
  /\ startswith (lower "/Quarterly sales, please") "/q" = true
  /\ graph_run (fun _ : unit => "[()]") 0 NHandleUserInput loaded_state
       [UserLine "/Quarterly sales, please"]
     = Some (NEnd, set_next_step loaded_state "END")
  /\ graph_run (fun _ : unit => "[()]") 0 NHandleUserInput loaded_state
       [UserLine "/Quarterly sales, please"; UserLine "total sales"]
     = None.
Proof.
  assert (Hhist : conversation_history (@loaded_state unit) <> []) by discriminate.
  assert (Hq : startswith (lower "/Quarterly sales, please") "/q" = true)
    by (vm_compute; reflexivity).
  assert (Hlater : [@UserLine unit "total sales"] <> []) by discriminate.
  destruct (quit_ends_the_session (fun _ : unit => "[()]") 0 loaded_state
              "/Quarterly sales, please" [UserLine "total sales"] Hhist Hq)
    as [Hend Hstop].
  split; [ exact Hhist | ]. split; [ exact Hq | ].
  split; [ exact Hend | exact (Hstop Hlater) ].
Defined.

(** A well-formed load command, in upper case. *)
Lemma upper_case_load_command :
  conversation_history (@chat_state unit) <> []
  /\ startswith (lower "/LOAD data/sales.csv meta.txt") "/load" = true
  /\ split_ws "/LOAD data/sales.csv meta.txt" = ["/LOAD"; "data/sales.csv"; "meta.txt"]
  /\ exists state',
      graph_step (fun _ : unit => "[()]") 0 NHandleUserInput chat_state
        (UserLine "/LOAD data/sales.csv meta.txt")
      = Some (NLoadData, state')
      /\ data_load_event state'
         = mkDataLoadEvent (Some "data/sales.csv") (Some "meta.txt").
Proof.
  assert (Hhist : conversation_history (@chat_state unit) <> []) by discriminate.
  assert (Hload : startswith (lower "/LOAD data/sales.csv meta.txt") "/load" = true)
    by (vm_compute; reflexivity).
  assert (Htokens : split_ws "/LOAD data/sales.csv meta.txt"
                    = ["/LOAD"; "data/sales.csv"; "meta.txt"])
    by (vm_compute; reflexivity).
  destruct (load_command_records_its_tokens (fun _ : unit => "[()]") 0 chat_state
              "/LOAD data/sales.csv meta.txt" "/LOAD" "data/sales.csv" "meta.txt"
              Hhist Hload Htokens) as [Hstep _].
  split; [ exact Hhist | ]. split; [ exact Hload | ]. split; [ exact Htokens | ].
  eexists. split; [ exact Hstep | reflexivity ].
Defined.

(** The load of the specification's scenario, in two steps. *)
Lemma load_command_then_load_scenario :
  conversation_history (@chat_state unit) <> []
  /\ startswith (lower "/load sales.csv sales_meta.txt") "/load" = true
  /\ split_ws "/load sales.csv sales_meta.txt"
     = ["/load"; "sales.csv"; "sales_meta.txt"]
  /\ exists state',
      graph_run (fun _ : unit => "[()]") 0 NHandleUserInput chat_state
        [UserLine "/load sales.csv sales_meta.txt";
         FileText "columns: id, amount, date"]
      = Some (NHandleUserInput, state')
      /\ table_schemas state'
         = "Table: sales" ++ newline ++ "columns: id, amount, date" ++ newline
      /\ data_load_event state'
         = mkDataLoadEvent (Some "sales.csv") (Some "sales_meta.txt").
Proof.
  assert (Hhist : conversation_history (@chat_state unit) <> []) by discriminate.
  assert (Hload : startswith (lower "/load sales.csv sales_meta.txt") "/load" = true)
    by (vm_compute; reflexivity).
  assert (Htokens : split_ws "/load sales.csv sales_meta.txt"
                    = ["/load"; "sales.csv"; "sales_meta.txt"])
    by (vm_compute; reflexivity).
  destruct (load_command_then_load (fun _ : unit => "[()]") 0 chat_state
              "/load sales.csv sales_meta.txt" "columns: id, amount, date"
              "/load" "sales.csv" "sales_meta.txt" Hhist Hload Htokens)
    as (state' & Hrun & Hschemas & _ & _ & Hevent & _).
  split; [ exact Hhist | ]. split; [ exact Hload | ]. split; [ exact Htokens | ].
  exists state'. split; [ exact Hrun | ]. split; [ | exact Hevent ].
  rewrite Hschemas. vm_compute. reflexivity.
Defined.

(** A file two directories down. *)
Lemma table_name_of_nested_file :
  lacks_char "/" "sales.2024" = true
  /\ lacks_char "/" "csv" = true
  /\ lacks_char "." "csv" = true
  /\ all_chars (fun c => Ascii.eqb c ".") "sales.2024" = false
  /\ table_name_of ("data/raw" ++ "/" ++ "sales.2024" ++ "." ++ "csv") = "sales.2024".
Proof.
  destruct (table_name_is_the_file_stem "data/raw" "sales.2024" "csv"
              eq_refl eq_refl eq_refl eq_refl) as [Hname _].
  repeat (split; [ reflexivity | ]). exact Hname.
Defined.

(** After two loads the system message shows both blocks. *)
Lemma prompt_after_two_loads :
  let show := fun _ : unit => "[()]" in
  let replies := [UserLine "/load sales.csv a.txt"; FileText "columns: id, amount";
                  UserLine "/load shops.csv b.txt"; FileText "columns: id, city"] in
  exists state head,
    graph_run show 0 NHandleUserInput chat_state replies
    = Some (NHandleUserInput, state)
    /\ get_conversation_history 100 state = head :: conversation_history state
    /\ contains (content head)
         ("Table: sales" ++ newline ++ "columns: id, amount" ++ newline) = true
    /\ contains (content head)
         ("Table: shops" ++ newline ++ "columns: id, city" ++ newline) = true.
Proof.
  cbv zeta.
  set (show := fun _ : unit => "[()]").
  set (replies := [UserLine "/load sales.csv a.txt"; FileText "columns: id, amount";
                   UserLine "/load shops.csv b.txt"; FileText "columns: id, city"]).
  assert (Hrun : graph_run show 0 NHandleUserInput chat_state replies
                 = Some (NHandleUserInput,
                         state_after show 0 NHandleUserInput chat_state replies))
    by (vm_compute; reflexivity).
  destruct (prompt_holds_every_loaded_block show 0 100 replies NHandleUserInput _ Hrun)
    as (head & Hhead & _ & _ & Hblocks).
  exists (state_after show 0 NHandleUserInput chat_state replies), head.
  split; [ exact Hrun | ]. split; [ exact Hhead | ].
  split; [ exact (Hblocks ("sales.csv", "columns: id, amount") (or_introl eq_refl)) | ].
  exact (Hblocks ("shops.csv", "columns: id, city") (or_intror (or_introl eq_refl))).
Defined.

(** The row limit is printed in decimal in the system message. *)
Example system_message_shows_row_limit :
  contains (content (system_message 100 (@chat_state unit)))
    "Limit query response to 100 rows at most." = true.
Proof. vm_compute. reflexivity. Qed.

(** The second of two load commands is the one recorded, also after a
    malformed third. *)
Lemma second_load_command_is_recorded :
  let show := fun _ : unit => "[()]" in
  let replies := [UserLine "/load sales.csv a.txt"; FileText "columns: id, amount";
                  UserLine "/load shops.csv b.txt"; FileText "columns: id, city";
                  UserLine "/load towns.csv"] in
  exists state,
    graph_run show 0 NHandleUserInput chat_state replies
    = Some (NHandleUserInput, state)
    /\ data_load_event state = mkDataLoadEvent (Some "shops.csv") (Some "b.txt").
Proof.
  cbv zeta.
  set (show := fun _ : unit => "[()]").
  set (replies := [UserLine "/load sales.csv a.txt"; FileText "columns: id, amount";
                   UserLine "/load shops.csv b.txt"; FileText "columns: id, city";
                   UserLine "/load towns.csv"]).
  assert (Hrun : graph_run show 0 NHandleUserInput chat_state replies
                 = Some (NHandleUserInput,
                         state_after show 0 NHandleUserInput chat_state replies))
    by (vm_compute; reflexivity).
  exists (state_after show 0 NHandleUserInput chat_state replies).
  split; [ exact Hrun | ].
  rewrite (load_event_is_the_last_command show 0 replies
             NHandleUserInput chat_state NHandleUserInput _ Hrun).
  vm_compute. reflexivity.
Defined.

(** One failure, then rows, with bound 1. *)
Lemma question_answered_after_one_retry :
  let show := fun _ : unit => "[(42,)]" in
  let tries := [("no such table: sale", "SELECT sum(amount) FROM sales")] in
  conversation_history (@loaded_state unit) <> []
  /\ table_schemas (@loaded_state unit) <> ""
  /\ Forall answers_with_sql tries
  /\ (Z.of_nat (length tries) <= 1)%Z
  /\ exists state',
      graph_run show 1 NHandleUserInput loaded_state
        (UserLine "total sales" :: LlmText "SELECT sum(amount) FROM sale"
         :: retried_replies tries tt "Sales total 42.")
      = Some (NHandleUserInput, state')
      /\ retry_count (sql_event state') = 1%Z
      /\ error (sql_event state') = None
      /\ llm_response (sql_event state') = Some "Sales total 42."
      /\ length (conversation_history state') = 7.
Proof.
  cbv zeta.
  assert (Hhist : conversation_history (@loaded_state unit) <> []) by discriminate.
  assert (Hschemas : table_schemas (@loaded_state unit) <> "") by discriminate.
  assert (Hq : startswith (lower "total sales") "/q" = false)
    by (vm_compute; reflexivity).
  assert (Hload : startswith (lower "total sales") "/load" = false)
    by (vm_compute; reflexivity).
  assert (Hfirst : startswith "SELECT sum(amount) FROM sale" clarification_marker
                   = false)
    by (vm_compute; reflexivity).
  assert (Hsql : Forall answers_with_sql
                   [("no such table: sale", "SELECT sum(amount) FROM sales")])
    by (repeat constructor).
  assert (Hcount : (Z.of_nat (length [("no such table: sale",
                                        "SELECT sum(amount) FROM sales")]) <= 1)%Z)
    by (cbn; lia).
  destruct (question_is_answered_after_retries (fun _ : unit => "[(42,)]") 1
              loaded_state "total sales" "SELECT sum(amount) FROM sale"
              [("no such table: sale", "SELECT sum(amount) FROM sales")]
              tt "Sales total 42." Hhist Hq Hload Hschemas Hfirst Hsql Hcount)
    as (state' & Hrun & _ & _ & Herror & Hsummary & Hretry & _ & Hlength & _).
  split; [ exact Hhist | ]. split; [ exact Hschemas | ].
  split; [ exact Hsql | ]. split; [ exact Hcount | ].
  exists state'. split; [ exact Hrun | ]. split; [ exact Hretry | ].
  split; [ exact Herror | ]. split; [ exact Hsummary | exact Hlength ].
Defined.

(** A dot file keeps its whole name as table name. *)
Example table_name_of_dot_file : table_name_of "data/.sales" = ".sales".
Proof. vm_compute. reflexivity. Qed.

(** The colour of a debug line, and of a level the table does not know. *)
Example colored_msg_samples :
  colored_msg "DEBUG" "Data file loaded into DuckDB."
  = escape ++ "[34m" ++ "Data file loaded into DuckDB." ++ escape ++ "[0m"
  /\ colored_msg "TRACE" "x" = escape ++ "[0m" ++ "x" ++ escape ++ "[0m".
Proof. split; vm_compute; reflexivity. Qed.
